(** * mata-connect: enrichment cache, record transformation and batch loader

    A shallow embedding of the Python sources

    - [enricher/database.py]            (the SQLite record store),
    - [enricher/process_communities.py] (the enrichment orchestrator),
    - [enricher/load_to_mongodb.py]     (the transformer and the batch loader),

    and the properties of them that the specification states.

    Conventions of the embedding.

    - Python [str] is modelled by [string]: a sequence of 8-bit characters.
      [str.upper] and [str.lower] are the ASCII case mappings, which is what
      Python computes on ASCII text; characters above 127 are left alone.
      The same holds of the white space [str.strip] removes. Every property
      that depends on a case mapping or on white space is therefore stated
      for ASCII text, where the model and Python agree.
    - Python objects that can be mutated or shared (lists and dicts) live in an
      explicit [heap] and are referred to by address; immutable values
      ([None], booleans, numbers, strings) are carried directly.
    - Code that can raise runs in the monad [M]: a heap transformer that
      returns either a value or the exception raised.
    - The clock ([datetime.now()], SQLite's [CURRENT_TIMESTAMP]) and the
      collaborators outside the repository (the enrichment agent, pydantic's
      serializer, [json.loads]' parser, the MongoDB collection) are parameters. *)

From Stdlib Require Import List String Ascii ZArith Bool Lia.
From Stdlib Require Floats.PrimFloat.
Import ListNotations.

Local Open Scope string_scope.
Local Open Scope Z_scope.
Local Open Scope list_scope.

(* ================================================================= *)
(** ** Python strings *)

Module PyStr.

(** [c.upper()] for one ASCII character. *)
Definition upper_char (c : ascii) : ascii :=
  let n := nat_of_ascii c in
  if (Nat.leb 97 n && Nat.leb n 122)%bool then ascii_of_nat (n - 32) else c.

(** [c.lower()] for one ASCII character. *)
Definition lower_char (c : ascii) : ascii :=
  let n := nat_of_ascii c in
  if (Nat.leb 65 n && Nat.leb n 90)%bool then ascii_of_nat (n + 32) else c.

(** [s.upper()] *)
Fixpoint upper (s : string) : string :=
  match s with
  | EmptyString => EmptyString
  | String c r => String (upper_char c) (upper r)
  end.

(** [s.lower()] *)
Fixpoint lower (s : string) : string :=
  match s with
  | EmptyString => EmptyString
  | String c r => String (lower_char c) (lower r)
  end.

(** [sub in s] on strings: [sub] occurs in [s] as a contiguous substring. *)
Fixpoint str_in (sub s : string) : bool :=
  if String.prefix sub s then true
  else match s with
       | EmptyString => false
       | String _ r => str_in sub r
       end.

(** [s in l] for a list of strings [l]. *)
Definition str_in_list (s : string) (l : list string) : bool :=
  existsb (String.eqb s) l.

End PyStr.

(** [s.isascii()]: every character is below 128. On such text [PyStr.upper]
    and [PyStr.lower] are Python's [str.upper] and [str.lower]. *)
Module PyAscii.

Definition isascii_char (c : ascii) : bool := Nat.ltb (nat_of_ascii c) 128.

Fixpoint isascii (s : string) : bool :=
  match s with
  | EmptyString => true
  | String c r => (isascii_char c && isascii r)%bool
  end.


End PyAscii.

(* ================================================================= *)
(** ** Python values, objects and the heap *)

Definition addr := nat.

(** A Python value as [json.loads] can produce it: an immutable value, or a
    reference to a list or a dict in the heap. *)
Inductive value : Type :=
| VNone
| VBool (b : bool)
| VInt (z : Z)
| VFloat (f : PrimFloat.float)
| VStr (s : string)
| VRef (a : addr).

(** A dict keeps its entries in insertion order, with distinct keys. *)
Inductive object : Type :=
| OList (items : list value)
| ODict (entries : list (string * value)).

(** The heap: the object at address [a] is the [a]-th element. Allocation
    appends; nothing is ever freed. *)
Definition heap := list object.

Definition deref (h : heap) (a : addr) : option object := nth_error h a.

(** [d.get(k)] on the entries of a dict. *)
Fixpoint dict_get (k : string) (es : list (string * value)) : option value :=
  match es with
  | [] => None
  | (k', v) :: r => if String.eqb k k' then Some v else dict_get k r
  end.

(** [d[k] = v] on the entries of a dict: an existing key keeps its place. *)
Fixpoint dict_set (k : string) (v : value) (es : list (string * value))
  : list (string * value) :=
  match es with
  | [] => [(k, v)]
  | (k', v') :: r =>
      if String.eqb k k' then (k', v) :: r else (k', v') :: dict_set k v r
  end.

(** The object at an allocated address replaced by [o]: what an update in
    place ([d[k] = v], [l.append(x)]) does to the heap. Nothing changes when
    the address is not allocated. *)
Definition heap_store (h : heap) (a : addr) (o : object) : heap :=
  firstn a h ++ match skipn a h with [] => [] | _ :: t => o :: t end.

(* ================================================================= *)
(** ** Exceptions and the monad of code that can raise *)

(** [e.details] of a pymongo [BulkWriteError]: the keys the loader reads.
    [writeErrors] is [None] when the key is missing from the details. *)
Record bulk_details : Type := {
  writeErrors : option (list nat);   (* the index of each rejected document *)
  nInserted : Z
}.

Inductive exn : Type :=
| AttributeError
| TypeError
| JSONDecodeError
| BulkWriteError (details : bulk_details)
| ServerSelectionTimeoutError          (* the destination cannot be reached *)
| SystemError.                         (* a dangling address: no Python program reaches it *)

Inductive result (A : Type) : Type :=
| Ok (a : A)
| Raise (e : exn).
Arguments Ok {A} a.
Arguments Raise {A} e.

Definition M (A : Type) : Type := heap -> result A * heap.

Definition ret {A} (a : A) : M A := fun h => (Ok a, h).

Definition raise {A} (e : exn) : M A := fun h => (Raise e, h).

Definition bind {A B} (m : M A) (k : A -> M B) : M B :=
  fun h => match m h with
           | (Ok a, h') => k a h'
           | (Raise e, h') => (Raise e, h')
           end.

Declare Scope py_scope.
Delimit Scope py_scope with py.
Notation "x <- c ;; k" := (bind c (fun x => k))
  (at level 100, c at next level, right associativity) : py_scope.
Local Open Scope py_scope.

(** A fresh object; its address is the result. *)
Definition alloc (o : object) : M value :=
  fun h => (Ok (VRef (List.length h)), h ++ [o]).

(** The object a reference points to. *)
Definition load (a : addr) : M object :=
  fun h => match deref h a with
           | Some o => (Ok o, h)
           | None => (Raise SystemError, h)
           end.

(** [bool(v)]: Python's truth value. *)
Definition truthy (v : value) : M bool :=
  match v with
  | VNone => ret false
  | VBool b => ret b
  | VInt z => ret (negb (z =? 0))
  | VFloat f => ret (negb (PrimFloat.eqb f PrimFloat.zero))
  | VStr s => ret (negb (String.eqb s ""))
  | VRef a =>
      o <- load a ;;
      ret (match o with
           | OList [] | ODict [] => false
           | _ => true
           end)
  end.

(** [d.get(k, default)]; [d.get(k)] is [py_get d k VNone]. Anything but a
    dict has no [get]. *)
Definition py_get (d : value) (k : string) (default : value) : M value :=
  match d with
  | VRef a =>
      o <- load a ;;
      match o with
      | ODict es => ret (match dict_get k es with Some v => v | None => default end)
      | OList _ => raise AttributeError
      end
  | _ => raise AttributeError
  end.

(** [x or y], with [y] already a value. *)
Definition py_or (x y : value) : M value :=
  b <- truthy x ;; ret (if b then x else y).

(** [d[k] = v] on a dict: the object at the address of [d] is replaced. The
    transformer never does this; pymongo does, when it adds [_id] to the
    documents it inserts. *)
Definition py_setitem (d : value) (k : string) (v : value) : M value :=
  match d with
  | VRef a =>
      o <- load a ;;
      match o with
      | ODict es => fun h => (Ok VNone, heap_store h a (ODict (dict_set k v es)))
      | OList _ => raise TypeError
      end
  | _ => raise TypeError
  end.

(* ================================================================= *)
(** ** load_to_mongodb.py: transform_community_data *)

Module Transformer.

Import PyStr.

(** Lines 50-55: the scalar language. *)
Definition language_of (language : value) : M value :=
  match language with
  | VRef a =>
      o <- load a ;;
      match o with
      | OList items =>                        (* isinstance(language, list) *)
          ret (match items with
               | x :: _ => x                  (* language[0] if language *)
               | [] => VNone
               end)
      | ODict _ =>
          b <- truthy language ;; ret (if b then language else VNone)
      end
  | _ => b <- truthy language ;; ret (if b then language else VNone)
  end.

(** Line 58. *)
Definition is_none (v : value) : bool :=
  match v with VNone => true | _ => false end.

(** [pricing_model.upper()]: only a string has the method. *)
Definition upper_method (v : value) : M string :=
  match v with
  | VStr s => ret (upper s)
  | _ => raise AttributeError
  end.

(** Lines 62-71: the canonical pricing model. *)
Definition pricing_model_of (pricing_model : value) : M value :=
  b <- truthy pricing_model ;;
  if b then
    pricing_model <- upper_method pricing_model ;;
    if str_in_list pricing_model ["FREE"; "FREEMIUM"; "PAID"] then
      ret (VStr pricing_model)
    else if str_in "free" (lower pricing_model) then
      ret (VStr "FREE")
    else
      ret (VStr "PAID")
  else
    ret VNone.

Section Clock.

(** [datetime.now().strftime("%Y-%m-%d")] and
    [datetime.now().isoformat()] at the time of the call. *)
Variable current_date : string.
Variable current_timestamp : string.

Definition transform_community_data (sqlite_data : value) (url : string)
  : M value :=
  language <- py_get sqlite_data "language" VNone ;;
  language <- language_of language ;;
  country <- py_get sqlite_data "country" VNone ;;
  is_virtual <-
    (if is_none country then
       city <- py_get sqlite_data "city" VNone ;; ret (is_none city)
     else ret false) ;;
  pricing_model <- py_get sqlite_data "pricing_model" VNone ;;
  pricing_model <- pricing_model_of pricing_model ;;
  name <- py_get sqlite_data "name" (VStr "") ;;
  description <- py_get sqlite_data "description" VNone ;;
  website <- py_get sqlite_data "website" (VStr url) ;;
  no_tags <- alloc (OList []) ;;
  tags <- py_get sqlite_data "tags" no_tags ;;
  focus_areas <- py_get sqlite_data "focus_areas" VNone ;;
  focus_areas <- py_or focus_areas (VStr "") ;;
  country <- py_get sqlite_data "country" VNone ;;
  city <- py_get sqlite_data "city" VNone ;;
  contact_email <- py_get sqlite_data "contact_email" VNone ;;
  no_links <- alloc (ODict []) ;;
  social_links <- py_get sqlite_data "social_links" no_links ;;
  no_info <- alloc (ODict []) ;;
  community_info <- py_get sqlite_data "community_info" no_info ;;
  topics_supported <- alloc (OList []) ;;
  audience_type <- alloc (OList []) ;;
  event_types <- alloc (OList []) ;;
  embedding <- alloc (OList []) ;;
  member_count <- py_get sqlite_data "member_count" VNone ;;
  alloc (ODict
    [ ("name", name);
      ("description", description);
      ("website", website);
      ("tags", tags);
      ("focus_areas", focus_areas);
      ("country", country);
      ("city", city);
      ("language", language);
      ("contact_email", contact_email);
      ("is_virtual", VBool is_virtual);
      ("social_links", social_links);
      ("community_info", community_info);
      ("pricing_model", pricing_model);
      ("topics_supported", topics_supported);
      ("audience_type", audience_type);
      ("event_types", event_types);
      ("year_founded", VNone);
      ("verified", VBool false);
      ("embedding", embedding);
      ("data_source", VStr url);
      ("created_at", VStr current_date);
      ("updated_at", VStr current_date);
      ("last_verified_at", VStr current_timestamp);
      ("member_count", member_count) ]).

End Clock.

End Transformer.

(* ================================================================= *)
(** ** JSON documents and the objects [json.loads] builds from them *)

#[local] Set Warnings "-register-all".
Inductive json : Type :=
| JNull
| JBool (b : bool)
| JInt (z : Z)
| JFloat (f : PrimFloat.float)
| JStr (s : string)
| JArr (items : list json)
| JObj (members : list (string * json)).

(** The Python object of a parsed JSON document: every array is a fresh list,
    every object a fresh dict (of a repeated key the last value wins). *)
Fixpoint build (j : json) : M value :=
  match j with
  | JNull => ret VNone
  | JBool b => ret (VBool b)
  | JInt z => ret (VInt z)
  | JFloat f => ret (VFloat f)
  | JStr s => ret (VStr s)
  | JArr items =>
      vs <- (fix build_items (l : list json) : M (list value) :=
               match l with
               | [] => ret []
               | x :: r => v <- build x ;; vs <- build_items r ;; ret (v :: vs)
               end) items ;;
      alloc (OList vs)
  | JObj members =>
      es <- (fix build_members (l : list (string * json))
                 (acc : list (string * value)) : M (list (string * value)) :=
               match l with
               | [] => ret acc
               | (k, x) :: r => v <- build x ;; build_members r (dict_set k v acc)
               end) members [] ;;
      alloc (ODict es)
  end.

(** All-or-nothing map, for reading a structure back from the heap. *)
Fixpoint traverse {A B} (f : A -> option B) (l : list A) : option (list B) :=
  match l with
  | [] => Some []
  | x :: r =>
      match f x, traverse f r with
      | Some y, Some ys => Some (y :: ys)
      | _, _ => None
      end
  end.

(** The structure reachable from a value, read back from the heap as a JSON
    document; [fuel] bounds the nesting depth. *)
Fixpoint snapshot (fuel : nat) (h : heap) (v : value) : option json :=
  match fuel with
  | O => None
  | S n =>
      match v with
      | VNone => Some JNull
      | VBool b => Some (JBool b)
      | VInt z => Some (JInt z)
      | VFloat f => Some (JFloat f)
      | VStr s => Some (JStr s)
      | VRef a =>
          match deref h a with
          | Some (OList items) =>
              option_map JArr (traverse (snapshot n h) items)
          | Some (ODict es) =>
              option_map JObj
                (traverse (fun e : string * value =>
                             option_map (pair (fst e)) (snapshot n h (snd e))) es)
          | None => None
          end
      end
  end.

(** The value stored under a key of the dict a reference points to. *)
Definition field (h : heap) (d : value) (k : string) : option value :=
  match d with
  | VRef a =>
      match deref h a with
      | Some (ODict es) => dict_get k es
      | _ => None
      end
  | _ => None
  end.

(* ================================================================= *)
(** ** openai_enricher.py: the enriched payload *)

Record CommunityInfo : Type := {
  name : string;
  description : string;
  short_description : string;
  tags : list string;
  website : string;
  country : option string;
  city : option string;
  language : option (list string);
  contact_email : option string;
  social_links : list (string * string);
  community_info : list (string * json);
  member_count : option Z;
  pricing_model : option string;
  focus_areas : option string
}.

(* ================================================================= *)
(** ** database.py: the record store *)

Module Database.

(** A reading of SQLite's [CURRENT_TIMESTAMP], in seconds. *)
Definition timestamp := Z.

(** A row of the table [communities]. *)
Record row : Type := {
  id : Z;
  url : string;
  enriched_data : string;
  created_at : timestamp;
  updated_at : timestamp
}.

(** The table: its rows in rowid order, and the largest rowid ever used
    (the [AUTOINCREMENT] counter SQLite keeps in [sqlite_sequence]). *)
Record table : Type := {
  rows : list row;
  seq : Z
}.

Definition empty : table := {| rows := []; seq := 0 |}.

(** [init_database]: [CREATE TABLE IF NOT EXISTS]. The file is [None] when
    it has no table yet. *)
Definition init_database (file : option table) : table :=
  match file with
  | Some t => t
  | None => empty
  end.

Definition has_url (u : string) (r : row) : bool := String.eqb (url r) u.

(** [url_exists]: [SELECT COUNT( * ) FROM communities WHERE url = ?],
    then [count > 0]. *)
Definition url_exists (t : table) (u : string) : bool :=
  let count := Z.of_nat (List.length (filter (has_url u) (rows t))) in
  count >? 0.

Section Save.

(** pydantic's [model_dump_json(indent=2)]. *)
Variable model_dump_json : CommunityInfo -> string.

(** [save_community_data]:
    [INSERT OR REPLACE INTO communities (url, enriched_data, updated_at)
     VALUES (?, ?, CURRENT_TIMESTAMP)].
    [REPLACE] deletes the row that holds the unique [url], then inserts
    the new row; the columns the statement does not name take their
    defaults: [id] the next rowid, [created_at] the [CURRENT_TIMESTAMP]. *)
Definition save_community_data (t : table) (u : string)
    (enriched : CommunityInfo) (now : timestamp) : table :=
  let json_data := model_dump_json enriched in
  let kept := filter (fun r => negb (has_url u r)) (rows t) in
  let new_row := {| id := seq t + 1;
                    url := u;
                    enriched_data := json_data;
                    created_at := now;
                    updated_at := now |} in
  {| rows := kept ++ [new_row]; seq := seq t + 1 |}.

End Save.

(** The stored row of a URL, if any. *)
Definition get_row (t : table) (u : string) : option row :=
  find (has_url u) (rows t).

(** [get_community_data] *)
Definition get_community_data (t : table) (u : string) : option string :=
  option_map enriched_data (get_row t u).

(** A URL put at its place in a list that is in the order of the index on
    [url]: byte by byte, a prefix first. *)
Fixpoint insert_url (u : string) (l : list string) : list string :=
  match l with
  | [] => [u]
  | x :: r => if String.leb u x then u :: l else x :: insert_url u r
  end.

(** [get_all_urls]: [SELECT url FROM communities]. The query asks for the
    one column the index on [url] holds, and SQLite answers it from the
    index: the URLs come in the order of the index, not of the rows. *)
Definition get_all_urls (t : table) : list string :=
  fold_right insert_url [] (map url (rows t)).

End Database.

(* ================================================================= *)
(** ** process_communities.py: the enrichment orchestrator *)

Module Orchestrator.

Import Database.

(** The counters of the loop, the store, and (not in the source: kept to
    state what the loop calls) the URLs handed to [enrich_community], in
    call order. *)
Record run_state : Type := {
  db : table;
  processed : Z;
  skipped : Z;
  failed : Z;
  enriched : list string
}.

Section Run.

Variable model_dump_json : CommunityInfo -> string.

(** [enricher.enrich_community(url)] at the [idx]-th URL of the run:
    the payload, or [None] when the call raises. *)
Variable enrich_community : nat -> string -> option CommunityInfo.

(** [CURRENT_TIMESTAMP] while the [idx]-th URL is processed. *)
Variable now : nat -> timestamp.

(** The body of the [for] loop, lines 70-92. *)
Definition process_url (idx : nat) (u : string) (st : run_state) : run_state :=
  if url_exists (db st) u then
    {| db := db st;
       processed := processed st;
       skipped := skipped st + 1;
       failed := failed st;
       enriched := enriched st |}
  else
    match enrich_community idx u with
    | Some enriched_data =>
        {| db := save_community_data model_dump_json (db st) u enriched_data (now idx);
           processed := processed st + 1;
           skipped := skipped st;
           failed := failed st;
           enriched := enriched st ++ [u] |}
    | None =>
        {| db := db st;
           processed := processed st;
           skipped := skipped st;
           failed := failed st + 1;
           enriched := enriched st ++ [u] |}
    end.

(** [for idx, url in enumerate(urls, idx)]. *)
Fixpoint process_urls (idx : nat) (urls : list string) (st : run_state)
  : run_state :=
  match urls with
  | [] => st
  | u :: rest => process_urls (S idx) rest (process_url idx u st)
  end.

(** [process_communities], from the URLs [read_urls_from_csv] returned:
    the state when the summary is printed. *)
Definition process_communities (urls : list string) (file : option table)
  : run_state :=
  process_urls 1 urls
    {| db := init_database file;
       processed := 0; skipped := 0; failed := 0;
       enriched := [] |}.

(** [total], line 65. *)
Definition total (urls : list string) : Z := Z.of_nat (List.length urls).

End Run.

End Orchestrator.

(* ================================================================= *)
(** ** load_to_mongodb.py: load_sqlite_to_mongodb *)

Module Loader.

Import Database.

(** What the summary logs. *)
Record summary : Type := {
  total_communities : Z;
  loaded : Z;            (* "Successfully loaded": [processed] *)
  not_loaded : Z         (* "Failed": [failed] *)
}.

Section Load.

(** The parser of [json.loads]; [None] when it raises [JSONDecodeError]. *)
Variable parse_json : string -> option json.

(** The destination collection and its [insert_many]: the ids of the
    inserted documents, or the exception pymongo raises. *)
Variable Collection : Type.
Variable insert_many :
  list value -> Collection -> heap -> result (list value) * Collection * heap.

(** [datetime.now()] while the [idx]-th row is transformed: the date and
    the ISO timestamp. *)
Variable today : nat -> string * string.

Variable batch_size : Z.

Record load_state : Type := {
  objects : heap;
  collection : Collection;
  documents : list value;
  processed : Z;
  failed : Z
}.

Definition len {A} (l : list A) : Z := Z.of_nat (List.length l).

(** [len(e.details.get("writeErrors", []))] *)
Definition count_write_errors (details : bulk_details) : Z :=
  match writeErrors details with
  | Some errs => len errs
  | None => 0
  end.

(** [json.loads(json_data)] followed by [transform_community_data]. *)
Definition parse_and_transform (idx : nat) (u json_data : string) : M value :=
  match parse_json json_data with
  | None => raise JSONDecodeError
  | Some j =>
      sqlite_data <- build j ;;
      Transformer.transform_community_data
        (fst (today idx)) (snd (today idx)) sqlite_data u
  end.

(** The body of the [for] loop, lines 150-179. *)
Definition load_row (idx : nat) (r : string * string) (st : load_state)
  : load_state :=
  let '(u, json_data) := r in
  match parse_and_transform idx u json_data (objects st) with
  | (Raise _, h) =>
      (* except json.JSONDecodeError / except Exception *)
      {| objects := h; collection := collection st;
         documents := documents st;
         processed := processed st; failed := failed st + 1 |}
  | (Ok mongo_doc, h) =>
      let docs := documents st ++ [mongo_doc] in      (* documents.append *)
      if len docs >=? batch_size then
        match insert_many docs (collection st) h with
        | (Ok inserted_ids, c, h') =>
            {| objects := h'; collection := c;
               documents := [];
               processed := processed st + len inserted_ids;
               failed := failed st |}
        | (Raise (BulkWriteError details), c, h') =>
            {| objects := h'; collection := c;
               documents := [];
               processed := processed st;
               failed := failed st + (len docs - count_write_errors details) |}
        | (Raise _, c, h') =>
            (* not a BulkWriteError: caught by the outer except Exception *)
            {| objects := h'; collection := c;
               documents := docs;
               processed := processed st;
               failed := failed st + 1 |}
        end
      else
        {| objects := h; collection := collection st;
           documents := docs;
           processed := processed st; failed := failed st |}
  end.

(** [for idx, (url, json_data) in enumerate(rows, idx)]. *)
Fixpoint load_rows (idx : nat) (rs : list (string * string)) (st : load_state)
  : load_state :=
  match rs with
  | [] => st
  | r :: rest => load_rows (S idx) rest (load_row idx r st)
  end.

(** Lines 182-191: the remaining documents. An exception that is not a
    [BulkWriteError] is not caught here and leaves the function. *)
Definition load_remaining (st : load_state) : result load_state :=
  match documents st with
  | [] => Ok st
  | _ :: _ =>
      match insert_many (documents st) (collection st) (objects st) with
      | (Ok inserted_ids, c, h') =>
          Ok {| objects := h'; collection := c;
                documents := documents st;
                processed := processed st + len inserted_ids;
                failed := failed st |}
      | (Raise (BulkWriteError details), c, h') =>
          Ok {| objects := h'; collection := c;
                documents := documents st;
                processed := processed st;
                failed := failed st
                          + (len (documents st) - count_write_errors details) |}
      | (Raise e, _, _) => Raise e
      end
  end.

(** [SELECT url, enriched_data FROM communities] *)
Definition select_rows (t : table) : list (string * string) :=
  map (fun r => (url r, enriched_data r)) (rows t).

(** [load_sqlite_to_mongodb], with a valid configuration and a client
    that connects: the summary logged ([None] when the store is empty and
    the function returns before the loop) and the collection, or the
    exception the function ends with. *)
Definition load_sqlite_to_mongodb (t : table) (c : Collection)
  : result (option summary * Collection) :=
  let rs := select_rows t in
  let total := len rs in
  if total =? 0 then Ok (None, c)
  else
    let st := load_rows 1 rs
                {| objects := []; collection := c; documents := [];
                   processed := 0; failed := 0 |} in
    match load_remaining st with
    | Raise e => Raise e
    | Ok st' =>
        Ok (Some {| total_communities := total;
                    loaded := processed st';
                    not_loaded := failed st' |},
            collection st')
    end.

End Load.

End Loader.

(* ================================================================= *)
(** ** Notions used to state the properties *)

(** Every reference stored in the heap points into the heap. *)
Definition valid (h : heap) (v : value) : bool :=
  match v with
  | VRef a => Nat.ltb a (List.length h)
  | _ => true
  end.

Definition closed_object (h : heap) (o : object) : bool :=
  match o with
  | OList items => forallb (valid h) items
  | ODict es => forallb (fun e : string * value => valid h (snd e)) es
  end.

Definition closed (h : heap) : bool := forallb (closed_object h) h.

(** A computation that leaves the heap as it found it. *)
Definition readonly {A} (m : M A) : Prop := forall h, snd (m h) = h.

(** A computation that only allocates: the heap it leaves is the heap it
    found, followed by the objects it created. *)
Definition extends {A} (m : M A) : Prop :=
  forall h, exists fresh, snd (m h) = h ++ fresh.

(** [d.get(k, default)] on the entries of a dict. *)
Definition get_or (es : list (string * value)) (k : string) (default : value)
  : value :=
  match dict_get k es with
  | Some v => v
  | None => default
  end.

(** The specification's pricing rule, on a present pricing model [s]: the
    upper-cased value when it is one of FREE, FREEMIUM, PAID; else FREE when
    [s], compared without regard to case, contains "free"; else PAID. *)
Definition spec_pricing (s : string) : string :=
  if PyStr.str_in_list (PyStr.upper s) ["FREE"; "FREEMIUM"; "PAID"]
  then PyStr.upper s
  else if PyStr.str_in (PyStr.lower "free") (PyStr.lower s) then "FREE"
  else "PAID".

(** The JSON value of an [Optional[str]] field. *)
Definition opt_str (o : option string) : value :=
  match o with
  | Some s => VStr s
  | None => VNone
  end.

(** The dict [transform_community_data] returns for a payload with entries
    [es], allocated in a heap of [n] objects, given the language, pricing
    model and focus areas it computed. *)
Definition document (date ts url : string) (es : list (string * value))
    (n : nat) (lang pm fa : value) : object :=
  ODict
    [ ("name", get_or es "name" (VStr ""));
      ("description", get_or es "description" VNone);
      ("website", get_or es "website" (VStr url));
      ("tags", get_or es "tags" (VRef n));
      ("focus_areas", fa);
      ("country", get_or es "country" VNone);
      ("city", get_or es "city" VNone);
      ("language", lang);
      ("contact_email", get_or es "contact_email" VNone);
      ("is_virtual", VBool (Transformer.is_none (get_or es "country" VNone)
                            && Transformer.is_none (get_or es "city" VNone))%bool);
      ("social_links", get_or es "social_links" (VRef (n + 1)%nat));
      ("community_info", get_or es "community_info" (VRef (n + 2)%nat));
      ("pricing_model", pm);
      ("topics_supported", VRef (n + 3)%nat);
      ("audience_type", VRef (n + 4)%nat);
      ("event_types", VRef (n + 5)%nat);
      ("year_founded", VNone);
      ("verified", VBool false);
      ("embedding", VRef (n + 6)%nat);
      ("data_source", VStr url);
      ("created_at", VStr date);
      ("updated_at", VStr date);
      ("last_verified_at", VStr ts);
      ("member_count", get_or es "member_count" VNone) ].

(* ================================================================= *)
(** ** Concrete inputs *)

Module Samples.

(** A payload with every key of [CommunityInfo], as the store holds it. *)
Definition payload (website pricing focus : json) : json :=
  JObj
    [ ("name", JStr "Women Who Code");
      ("description", JStr "A community of women in technology.");
      ("short_description", JStr "Women in technology.");
      ("tags", JArr [JStr "Tech"; JStr "Career"]);
      ("website", website);
      ("country", JNull);
      ("city", JNull);
      ("language", JArr [JStr "English"; JStr "French"]);
      ("contact_email", JNull);
      ("social_links", JObj [("twitter", JStr "https://twitter.com/wwcode")]);
      ("community_info", JObj [("75K", JStr "members")]);
      ("member_count", JInt 75000);
      ("pricing_model", pricing);
      ("focus_areas", focus) ].

(** The heap after [json.loads] of a document, and the object it returned. *)
Definition loaded_heap (j : json) : heap := snd (build j []).

Definition loaded_value (j : json) : value :=
  match fst (build j []) with
  | Ok v => v
  | Raise _ => VNone
  end.

Definition entries_of (h : heap) (v : value) : list (string * value) :=
  match v with
  | VRef a =>
      match deref h a with
      | Some (ODict es) => es
      | _ => []
      end
  | _ => []
  end.

Definition date : string := "2026-11-04".
Definition stamp : string := "2026-11-04T09:30:00".

(** [transform_community_data(json.loads(text), url)] on an empty heap. *)
Definition transformed (j : json) (u : string) : result value * heap :=
  Transformer.transform_community_data date stamp (loaded_value j) u
    (loaded_heap j).

(** The value a run left under a key of the document it returned. *)
Definition result_field (r : result value * heap) (k : string) : option value :=
  match fst r with
  | Ok doc => field (snd r) doc k
  | Raise _ => None
  end.

(** Two payloads of the enrichment agent for the same community. *)
Definition info (pricing : option string) : CommunityInfo :=
  {| name := "Women Who Code";
     description := "A community of women in technology.";
     short_description := "Women in technology.";
     tags := ["Tech"; "Career"];
     website := "https://womenwhocode.com";
     country := None;
     city := None;
     language := Some ["English"];
     contact_email := None;
     social_links := [];
     community_info := [];
     member_count := Some 75000;
     pricing_model := pricing;
     focus_areas := None |}.

(** A stand-in for pydantic's serializer: enough of the payload to tell two
    payloads apart. *)
Definition dump (c : CommunityInfo) : string :=
  match pricing_model c with
  | Some s => name c ++ ": " ++ s
  | None => name c
  end.

(** An agent that succeeds on every URL, and one that fails on every URL. *)
Definition agent_ok (idx : nat) (u : string) : option CommunityInfo :=
  Some (info (Some "free")).

Definition agent_down (idx : nat) (u : string) : option CommunityInfo := None.

Definition tick (idx : nat) : Database.timestamp := 1000 + Z.of_nat idx.

(** A parser for the one JSON text the sample stores hold. *)
Definition parse (text : string) : option json :=
  if String.eqb text "{}" then Some (JObj []) else None.

(** A store of [n] records, each holding the JSON text of an empty object. *)
Definition store (n : nat) : Database.table :=
  {| Database.rows :=
       map (fun i => {| Database.id := Z.of_nat i;
                        Database.url := "http://site" ++ String (ascii_of_nat (48 + i)) "";
                        Database.enriched_data := "{}";
                        Database.created_at := 1000;
                        Database.updated_at := 1000 |})
           (seq 1 n);
     Database.seq := Z.of_nat n |}.

(** A destination is observed through the batches it was sent. *)
Definition batches := list (list value).

Definition ids (docs : list value) : list value :=
  map (fun i => VInt (Z.of_nat i)) (seq 0 (List.length docs)).

(** A collection that accepts all but the third document of every batch. *)
Definition rejects_third (docs : list value) (c : batches) (h : heap)
  : result (list value) * batches * heap :=
  (Raise (BulkWriteError
            {| writeErrors := Some [2%nat];
               nInserted := Z.of_nat (List.length docs) - 1 |}),
   c ++ [docs], h).

(** A collection that cannot be reached at the first call and accepts every
    document afterwards. *)
Definition down_once (docs : list value) (c : batches) (h : heap)
  : result (list value) * batches * heap :=
  match c with
  | [] => (Raise ServerSelectionTimeoutError, c ++ [docs], h)
  | _ :: _ => (Ok (ids docs), c ++ [docs], h)
  end.

Definition today (idx : nat) : string * string := (date, stamp).

End Samples.

(* ================================================================= *)
(** ** Invariants of the record store *)

Module StoreInvariant.

Import Database.

(** At most one row for a URL: the [UNIQUE] constraint on [url]. *)
Definition unique_urls (t : table) : Prop := NoDup (get_all_urls t).

(** No two rows share an id, and no id is beyond the [AUTOINCREMENT]
    counter. *)
Definition ids_in_sequence (t : table) : Prop :=
  NoDup (map id (rows t)) /\ Forall (fun r => id r <= seq t) (rows t).

End StoreInvariant.

(* ================================================================= *)
(** ** The shape of a document *)

(** The keys of the dict literal of lines 78-103, in order. *)
Definition document_keys : list string :=
  [ "name"; "description"; "website"; "tags"; "focus_areas"; "country";
    "city"; "language"; "contact_email"; "is_virtual"; "social_links";
    "community_info"; "pricing_model"; "topics_supported"; "audience_type";
    "event_types"; "year_founded"; "verified"; "embedding"; "data_source";
    "created_at"; "updated_at"; "last_verified_at"; "member_count" ].

(* ================================================================= *)
(** ** Destinations *)

Module Destination.

Section Kinds.

Context {C : Type}.
Variable insert_many :
  list value -> C -> heap -> result (list value) * C * heap.

(** A destination that inserts every document it is sent: one id for each. *)
Definition accepts_all : Prop :=
  forall docs c h, exists ids c' h',
    insert_many docs c h = (Ok ids, c', h') /\
    List.length ids = List.length docs.

(** A destination whose [insert_many] raises nothing but [BulkWriteError]. *)
Definition raises_only_bulk : Prop :=
  forall docs c h,
    match fst (fst (insert_many docs c h)) with
    | Ok _ | Raise (BulkWriteError _) => True
    | Raise _ => False
    end.

(** The same destination, with the batches it was sent kept beside its
    state, in the order of the calls. *)
Definition recording (docs : list value) (cl : C * list (list value))
    (h : heap) : result (list value) * (C * list (list value)) * heap :=
  let '(r, c', h') := insert_many docs (fst cl) h in
  (r, (c', snd cl ++ [docs]), h').

End Kinds.

(** While a store is loaded into a recording destination: the batches sent
    so far are full and the batch in the making is not. A full batch has
    [batch_size] documents, or one when [batch_size] is below 1. *)
Definition full_batches {C : Type} (batch_size : Z)
    (st : Loader.load_state (C * list (list value))) : Prop :=
  Forall (fun b => Loader.len b = Z.max 1 batch_size)
    (snd (Loader.collection _ st)) /\
  Loader.len (Loader.documents _ st) < Z.max 1 batch_size.

(** A destination that inserts everything and keeps no state. *)
Definition accepting (docs : list value) (c : unit) (h : heap)
  : result (list value) * unit * heap :=
  (Ok (Samples.ids docs), c, h).

(** A parser for a few JSON texts. *)
Definition parse_more (text : string) : option json :=
  if String.eqb text "{}" then Some (JObj [])
  else if String.eqb text "[]" then Some (JArr [])
  else if String.eqb text "null" then Some JNull
  else if String.eqb text "42" then Some (JInt 42)
  else None.

(** A store of three records, none of which holds a JSON object. *)
Definition broken_store : Database.table :=
  {| Database.rows :=
       [ {| Database.id := 1; Database.url := "http://site1";
            Database.enriched_data := "[]";
            Database.created_at := 1000; Database.updated_at := 1000 |};
         {| Database.id := 2; Database.url := "http://site2";
            Database.enriched_data := "null";
            Database.created_at := 1000; Database.updated_at := 1000 |};
         {| Database.id := 3; Database.url := "http://site3";
            Database.enriched_data := "{ not json";
            Database.created_at := 1000; Database.updated_at := 1000 |} ];
     Database.seq := 3 |}.

End Destination.

(* ================================================================= *)
(** ** process_communities.py: read_urls_from_csv *)

Module UrlList.

(** [c.isspace()] for an ASCII character: tab to carriage return, the four
    separators 28 to 31, and the space. Python's [str.strip] also removes
    white space outside ASCII (U+0085, U+00A0, ...): the functions below are
    Python's on ASCII text, and what is stated of cells they leave unchanged
    is stated of ASCII cells. *)
Definition is_space (c : ascii) : bool :=
  let n := nat_of_ascii c in
  ((Nat.leb 9 n && Nat.leb n 13) || (Nat.leb 28 n && Nat.leb n 32))%bool.

Definition is_comma (c : ascii) : bool := Ascii.eqb c ",".

(** [s.lstrip()] and [s.lstrip(chars)]: the leading characters that [p]
    holds of are dropped. *)
Fixpoint lstrip_of (p : ascii -> bool) (s : string) : string :=
  match s with
  | EmptyString => EmptyString
  | String c r => if p c then lstrip_of p r else s
  end.

(** [s.rstrip()] and [s.rstrip(chars)]: the same at the end. *)
Fixpoint rstrip_of (p : ascii -> bool) (s : string) : string :=
  match s with
  | EmptyString => EmptyString
  | String c r =>
      match rstrip_of p r with
      | EmptyString => if p c then EmptyString else String c EmptyString
      | String c' r' => String c (String c' r')
      end
  end.

(** [s.strip()] *)
Definition strip (s : string) : string :=
  lstrip_of is_space (rstrip_of is_space s).

(** [s.split(",")[0]]: what stands before the first comma. *)
Fixpoint before_comma (s : string) : string :=
  match s with
  | EmptyString => EmptyString
  | String c r => if is_comma c then EmptyString else String c (before_comma r)
  end.

(** Lines 29-36, for one row of [csv.reader]: the URL the row gives, if it
    gives one. *)
Definition clean_row (row : list string) : option string :=
  match row with
  | [] => None
  | cell :: _ =>
      if String.eqb (strip cell) "" then None
      else
        let url := rstrip_of is_comma (strip cell) in
        let url := if PyStr.str_in "," url then strip (before_comma url)
                   else url in
        if String.eqb url "" then None else Some url
  end.

(** [read_urls_from_csv], from the rows [csv.reader] yields. *)
Fixpoint read_urls_from_csv (rows : list (list string)) : list string :=
  match rows with
  | [] => []
  | row :: rest =>
      match clean_row row with
      | Some url => url :: read_urls_from_csv rest
      | None => read_urls_from_csv rest
      end
  end.

(** A URL that cleaning leaves as it is: ASCII text, not empty, without
    comma, without white space at either end. *)
Definition clean (u : string) : Prop :=
  PyAscii.isascii u = true /\
  u <> "" /\ PyStr.str_in "," u = false /\ strip u = u.

End UrlList.

(* ================================================================= *)
(** ** Notions on the objects of a JSON document *)

Module BuildNotions.

(** [build] succeeds on a document, only allocates, and returns a value that
    points into the heap it leaves. *)
Definition builds (j : json) : Prop :=
  forall h, exists v fresh,
    build j h = (Ok v, h ++ fresh) /\ valid (h ++ fresh) v = true.

(** Every value of the entries points into the heap. *)
Definition valid_entries (h : heap) (es : list (string * value)) : Prop :=
  Forall (fun e => valid h (snd e) = true) es.

(** A value that is null or a string. *)
Definition textual (v : value) : Prop := exists pm, v = opt_str pm.

(** A JSON value that is null or a string. *)
Definition textual_json (x : json) : Prop :=
  x = JNull \/ exists s, x = JStr s.

End BuildNotions.


(* ================================================================= *)
(** ** Facts about the heap and the monad *)

Module HeapFacts.

Lemma deref_app (h fresh : heap) (a : addr) (o : object) :
  deref h a = Some o -> deref (h ++ fresh) a = Some o.
Proof.
  unfold deref. intros H.
  rewrite nth_error_app1; [assumption|].
  apply nth_error_Some. congruence.
Qed.

Lemma load_ok (h : heap) (a : addr) (o : object) :
  deref h a = Some o -> load a h = (Ok o, h).
Proof. unfold load. intros ->. reflexivity. Qed.

Lemma py_get_dict (h : heap) (p : addr) (es : list (string * value)) k d :
  deref h p = Some (ODict es) ->
  py_get (VRef p) k d h = (Ok (get_or es k d), h).
Proof.
  intros H. unfold py_get, bind. rewrite (load_ok _ _ _ H). reflexivity.
Qed.

Lemma readonly_run {A} (m : M A) (h : heap) :
  readonly m -> m h = (fst (m h), h).
Proof. intros R. rewrite <- (R h) at 3. apply surjective_pairing. Qed.

Lemma readonly_ret {A} (a : A) : readonly (ret a).
Proof. intros h. reflexivity. Qed.

Lemma readonly_raise {A} (e : exn) : readonly (@raise A e).
Proof. intros h. reflexivity. Qed.

Lemma readonly_load (a : addr) : readonly (load a).
Proof. intros h. unfold load. destruct (deref h a); reflexivity. Qed.

Lemma readonly_bind {A B} (m : M A) (k : A -> M B) :
  readonly m -> (forall a, readonly (k a)) -> readonly (bind m k).
Proof.
  intros Rm Rk h. unfold bind.
  rewrite (readonly_run m h Rm).
  destruct (fst (m h)); [apply Rk | reflexivity].
Qed.

Lemma readonly_truthy (v : value) : readonly (truthy v).
Proof.
  destruct v; simpl; try apply readonly_ret.
  apply readonly_bind; [apply readonly_load | intros; apply readonly_ret].
Qed.

Lemma readonly_py_get d k v : readonly (py_get d k v).
Proof.
  destruct d; simpl; try apply readonly_raise.
  apply readonly_bind; [apply readonly_load|].
  intros []; [apply readonly_raise | apply readonly_ret].
Qed.

Lemma readonly_py_or x y : readonly (py_or x y).
Proof.
  apply readonly_bind; [apply readonly_truthy | intros; apply readonly_ret].
Qed.

Lemma readonly_language_of v : readonly (Transformer.language_of v).
Proof.
  unfold Transformer.language_of.
  destruct v;
    try (apply readonly_bind; [apply readonly_truthy | intros; apply readonly_ret]).
  apply readonly_bind; [apply readonly_load|].
  intros []; [apply readonly_ret|].
  apply readonly_bind; [apply readonly_truthy | intros; apply readonly_ret].
Qed.

Lemma readonly_pricing_model_of v : readonly (Transformer.pricing_model_of v).
Proof.
  unfold Transformer.pricing_model_of.
  apply readonly_bind; [apply readonly_truthy|].
  intros []; [|apply readonly_ret].
  apply readonly_bind.
  - destruct v; simpl; try apply readonly_raise; apply readonly_ret.
  - intros s. destruct (PyStr.str_in_list _ _); [apply readonly_ret|].
    destruct (PyStr.str_in _ _); apply readonly_ret.
Qed.

(** An assignment is neither read-only nor a mere allocation. *)
Lemma py_setitem_mutates :
  snd (py_setitem (VRef 0%nat) "name" (VStr "B") [ODict [("name", VStr "A")]])
  = [ODict [("name", VStr "B")]]
  /\ ~ extends (py_setitem (VRef 0%nat) "name" (VStr "B")).
Proof.
  split; [reflexivity|].
  intros E. destruct (E [ODict [("name", VStr "A")]]) as [fresh H].
  simpl in H. discriminate H.
Qed.

End HeapFacts.

(* ================================================================= *)
(** ** Facts about the transformer *)

Module TransformerFacts.

Import Transformer HeapFacts.

Lemma alloc_eq o h : alloc o h = (Ok (VRef (List.length h)), h ++ [o]).
Proof. reflexivity. Qed.

Lemma transform_eq date ts h p es url :
  deref h p = Some (ODict es) ->
  transform_community_data date ts (VRef p) url h =
    match fst (language_of (get_or es "language" VNone) h) with
    | Raise e => (Raise e, h)
    | Ok lang =>
        match fst (pricing_model_of (get_or es "pricing_model" VNone) h) with
        | Raise e => (Raise e, h)
        | Ok pm =>
            match fst (py_or (get_or es "focus_areas" VNone) (VStr "")
                         (h ++ [OList []])) with
            | Raise e => (Raise e, h ++ [OList []])
            | Ok fa =>
                (Ok (VRef (List.length h + 7)%nat),
                 h ++ [OList []; ODict []; ODict [];
                       OList []; OList []; OList []; OList [];
                       document date ts url es (List.length h) lang pm fa])
            end
        end
    end.
Proof.
  intros Hp.
  unfold transform_community_data.
  unfold bind at 1. rewrite (py_get_dict _ _ _ _ _ Hp).
  unfold bind at 1. rewrite (readonly_run _ h (readonly_language_of _)).
  destruct (fst (language_of _ h)) as [lang|e]; [|reflexivity].
  unfold bind at 1. rewrite (py_get_dict _ _ _ _ _ Hp).
  unfold bind at 1.
  assert (Hv : (if is_none (get_or es "country" VNone)
                then city <- py_get (VRef p) "city" VNone ;; ret (is_none city)
                else ret false) h
               = (Ok (is_none (get_or es "country" VNone)
                      && is_none (get_or es "city" VNone))%bool, h)).
  { destruct (is_none (get_or es "country" VNone)); [|reflexivity].
    unfold bind. rewrite (py_get_dict _ _ _ _ _ Hp). reflexivity. }
  rewrite Hv; clear Hv.
  unfold bind at 1. rewrite (py_get_dict _ _ _ _ _ Hp).
  unfold bind at 1. rewrite (readonly_run _ h (readonly_pricing_model_of _)).
  destruct (fst (pricing_model_of _ h)) as [pm|e]; [|reflexivity].
  do 3 (unfold bind at 1; rewrite (py_get_dict _ _ _ _ _ Hp)).
  unfold bind at 1. rewrite alloc_eq.
  pose proof (deref_app h [OList []] p _ Hp) as Hp1.
  set (h1 := h ++ [OList []]) in *.
  do 2 (unfold bind at 1; rewrite (py_get_dict _ _ _ _ _ Hp1)).
  unfold bind at 1. rewrite (readonly_run _ h1 (readonly_py_or _ _)).
  destruct (fst (py_or _ _ h1)) as [fa|e]; [|reflexivity].
  do 3 (unfold bind at 1; rewrite (py_get_dict _ _ _ _ _ Hp1)).
  unfold bind at 1. rewrite alloc_eq.
  pose proof (deref_app h1 [ODict []] p _ Hp1) as Hp2.
  set (h2 := h1 ++ [ODict []]) in *.
  unfold bind at 1; rewrite (py_get_dict _ _ _ _ _ Hp2).
  unfold bind at 1. rewrite alloc_eq.
  pose proof (deref_app h2 [ODict []] p _ Hp2) as Hp3.
  set (h3 := h2 ++ [ODict []]) in *.
  unfold bind at 1; rewrite (py_get_dict _ _ _ _ _ Hp3).
  do 4 (unfold bind at 1; rewrite alloc_eq).
  set (h7 := (((h3 ++ _) ++ _) ++ _) ++ _).
  assert (Hp7 : deref h7 p = Some (ODict es)).
  { unfold h7. do 4 apply deref_app. exact Hp3. }
  unfold bind at 1; rewrite (py_get_dict _ _ _ _ _ Hp7).
  rewrite alloc_eq.
  unfold h7, h3, h2, h1.
  repeat rewrite length_app. simpl List.length.
  repeat rewrite <- app_assoc. simpl.
  unfold document.
  repeat rewrite <- Nat.add_assoc. simpl Nat.add.
  reflexivity.
Qed.

Lemma valid_app h fresh v : valid h v = true -> valid (h ++ fresh) v = true.
Proof.
  destruct v; simpl; auto.
  rewrite !Nat.ltb_lt, length_app. lia.
Qed.

Lemma dict_get_In k es v : dict_get k es = Some v -> exists k', In (k', v) es.
Proof.
  induction es as [|[k' v'] r IH]; simpl; [discriminate|].
  destruct (String.eqb k k').
  - intros [= ->]. exists k'. now left.
  - intros H. destruct (IH H) as [k'' Hin]. exists k''. now right.
Qed.

Lemma closed_get h p es k d :
  closed h = true -> deref h p = Some (ODict es) -> valid h d = true ->
  valid h (get_or es k d) = true.
Proof.
  intros Hc Hp Hd. unfold get_or.
  destruct (dict_get k es) as [v|] eqn:Hk; [|assumption].
  destruct (dict_get_In _ _ _ Hk) as [k' Hin].
  unfold closed in Hc. rewrite forallb_forall in Hc.
  specialize (Hc _ (nth_error_In _ _ Hp)). simpl in Hc.
  rewrite forallb_forall in Hc. exact (Hc _ Hin).
Qed.

Lemma valid_deref h a : valid h (VRef a) = true -> exists o, deref h a = Some o.
Proof.
  simpl. rewrite Nat.ltb_lt. intros H. unfold deref.
  destruct (nth_error h a) eqn:E; [eauto|].
  apply nth_error_None in E. lia.
Qed.

Lemma truthy_valid h v : valid h v = true -> exists b, truthy v h = (Ok b, h).
Proof.
  destruct v; simpl truthy; try (intros _; eexists; reflexivity).
  intros Hv. destruct (valid_deref _ _ Hv) as [o Ho].
  unfold bind. rewrite (load_ok _ _ _ Ho). eexists; reflexivity.
Qed.

Lemma language_of_valid h v :
  valid h v = true -> exists l, language_of v h = (Ok l, h).
Proof.
  intros Hv. destruct (truthy_valid _ _ Hv) as [b Hb].
  destruct v; unfold language_of;
    try (unfold bind; rewrite Hb; eexists; reflexivity).
  destruct (valid_deref _ _ Hv) as [o Ho].
  unfold bind at 1. rewrite (load_ok _ _ _ Ho).
  destruct o; [eexists; reflexivity|].
  unfold bind. rewrite Hb. eexists; reflexivity.
Qed.

Lemma py_or_valid h x y : valid h x = true -> exists r, py_or x y h = (Ok r, h).
Proof.
  intros Hv. destruct (truthy_valid _ _ Hv) as [b Hb].
  unfold py_or, bind. rewrite Hb. eexists; reflexivity.
Qed.

Lemma field_fresh h objs o k :
  List.length objs = 7%nat ->
  field (h ++ objs ++ [o]) (VRef (List.length h + 7)%nat) k =
    match o with ODict es => dict_get k es | OList _ => None end.
Proof.
  intros Hl. unfold field, deref.
  rewrite nth_error_app2 by lia.
  replace (List.length h + 7 - List.length h)%nat with (List.length objs) by lia.
  rewrite nth_error_app2 by lia. rewrite Nat.sub_diag. simpl.
  destruct o; reflexivity.
Qed.

(** The transform of a payload dict in a closed heap returns a document. *)
Lemma transform_ok date ts h p es url pm :
  closed h = true -> deref h p = Some (ODict es) ->
  fst (pricing_model_of (get_or es "pricing_model" VNone) h) = Ok pm ->
  exists lang fa,
    fst (language_of (get_or es "language" VNone) h) = Ok lang /\
    fst (py_or (get_or es "focus_areas" VNone) (VStr "") (h ++ [OList []])) = Ok fa /\
    transform_community_data date ts (VRef p) url h =
      (Ok (VRef (List.length h + 7)%nat),
       h ++ [OList []; ODict []; ODict []; OList []; OList []; OList []; OList []]
         ++ [document date ts url es (List.length h) lang pm fa]).
Proof.
  intros Hc Hp Hpm.
  destruct (language_of_valid h (get_or es "language" VNone)) as [lang Hl].
  { now apply closed_get with (p := p). }
  destruct (py_or_valid (h ++ [OList []]) (get_or es "focus_areas" VNone) (VStr ""))
    as [fa Hfa].
  { apply valid_app. now apply closed_get with (p := p). }
  exists lang, fa.
  rewrite (transform_eq date ts h p es url Hp), Hl, Hfa, Hpm. simpl.
  repeat split.
Qed.

(** Of the ASCII case maps of the model; Python's [str.lower] and
    [str.upper] satisfy it on ASCII text, not beyond. *)
Lemma lower_upper_char c : PyStr.lower_char (PyStr.upper_char c) = PyStr.lower_char c.
Proof. destruct c as [[] [] [] [] [] [] [] []]; vm_compute; reflexivity. Qed.

Lemma lower_upper s : PyStr.lower (PyStr.upper s) = PyStr.lower s.
Proof.
  induction s as [|c r IH]; simpl; [reflexivity|].
  now rewrite lower_upper_char, IH.
Qed.

Lemma pricing_model_of_none h : pricing_model_of VNone h = (Ok VNone, h).
Proof. reflexivity. Qed.

Lemma pricing_model_of_empty h : pricing_model_of (VStr "") h = (Ok VNone, h).
Proof. reflexivity. Qed.

Lemma pricing_model_of_str s h :
  s <> "" -> pricing_model_of (VStr s) h = (Ok (VStr (spec_pricing s)), h).
Proof.
  intros Hs. apply String.eqb_neq in Hs.
  unfold pricing_model_of, spec_pricing, bind, truthy, upper_method, ret.
  rewrite Hs. cbn [negb]. rewrite lower_upper.
  change (PyStr.lower "free") with "free".
  destruct (PyStr.str_in_list _ _); [reflexivity|].
  destruct (PyStr.str_in _ _); reflexivity.
Qed.

Lemma pricing_model_of_opt (pm : option string) h :
  pricing_model_of (opt_str pm) h =
    (Ok (match pm with
         | None => VNone
         | Some s => if String.eqb s "" then VNone else VStr (spec_pricing s)
         end), h).
Proof.
  destruct pm as [s|]; [|reflexivity]. simpl opt_str.
  destruct (String.eqb s "") eqn:E.
  - apply String.eqb_eq in E. subst. reflexivity.
  - apply pricing_model_of_str. now apply String.eqb_neq.
Qed.

Lemma extends_readonly {A} (m : M A) : readonly m -> extends m.
Proof. intros R h. exists []. rewrite app_nil_r. apply R. Qed.

Lemma extends_alloc o : extends (alloc o).
Proof. intros h. exists [o]. reflexivity. Qed.

Lemma extends_bind {A B} (m : M A) (k : A -> M B) :
  extends m -> (forall a, extends (k a)) -> extends (bind m k).
Proof.
  intros Em Ek h. unfold bind.
  destruct (Em h) as [f1 H1].
  destruct (m h) as [[a|e] h1]; simpl in H1; subst h1.
  - destruct (Ek a (h ++ f1)) as [f2 H2]. exists (f1 ++ f2).
    rewrite H2. now rewrite app_assoc.
  - exists f1. reflexivity.
Qed.

Lemma readonly_is_virtual d country :
  readonly (if is_none country
            then city <- py_get d "city" VNone ;; ret (is_none city)
            else ret false).
Proof.
  destruct (is_none country); [|apply readonly_ret].
  apply readonly_bind; [apply readonly_py_get | intros; apply readonly_ret].
Qed.

Lemma extends_transform date ts d url :
  extends (transform_community_data date ts d url).
Proof.
  unfold transform_community_data.
  repeat first
    [ apply extends_alloc
    | apply extends_readonly;
      first [ apply readonly_py_get | apply readonly_language_of
            | apply readonly_pricing_model_of | apply readonly_py_or
            | apply readonly_is_virtual ]
    | apply extends_bind; [|intros ?] ].
Qed.

Lemma traverse_mono {A B} (f g : A -> option B) l ys :
  (forall x y, In x l -> f x = Some y -> g x = Some y) ->
  traverse f l = Some ys -> traverse g l = Some ys.
Proof.
  revert ys. induction l as [|x r IH]; simpl; intros ys Hfg; [auto|].
  destruct (f x) as [y|] eqn:Fx; [|discriminate].
  destruct (traverse f r) as [ys'|] eqn:Fr; [|discriminate].
  intros [= <-].
  rewrite (Hfg x y (or_introl eq_refl) Fx).
  rewrite (IH ys' (fun x0 y0 Hin => Hfg x0 y0 (or_intror Hin)) eq_refl).
  reflexivity.
Qed.

Lemma snapshot_app fuel h fresh v j :
  snapshot fuel h v = Some j -> snapshot fuel (h ++ fresh) v = Some j.
Proof.
  revert v j. induction fuel as [|n IH]; simpl; [discriminate|].
  intros [] j; auto.
  destruct (deref h a) as [o|] eqn:Ha; [|discriminate].
  rewrite (deref_app _ fresh _ _ Ha).
  destruct o as [items|es].
  - destruct (traverse (snapshot n h) items) as [ys|] eqn:T; [|discriminate].
    intros H. erewrite traverse_mono; [exact H | | exact T].
    intros x y _. apply IH.
  - destruct (traverse _ es) as [ys|] eqn:T; [|discriminate].
    intros H. erewrite traverse_mono; [exact H | | exact T].
    intros [k x] y _. simpl.
    destruct (snapshot n h x) as [jx|] eqn:Sx; [|discriminate].
    now rewrite (IH _ _ Sx).
Qed.

End TransformerFacts.

(* ================================================================= *)
(** ** Facts about the record store and the orchestrator *)

Module DatabaseFacts.
Import Database.

Lemma url_exists_existsb t u : url_exists t u = existsb (has_url u) (rows t).
Proof.
  unfold url_exists. induction (rows t) as [|r l IH]; simpl; [reflexivity|].
  destruct (has_url u r); simpl.
  - apply Z.gtb_lt. lia.
  - exact IH.
Qed.

Lemma existsb_filter_other u u' l :
  u' <> u ->
  existsb (has_url u') (filter (fun r => negb (has_url u r)) l)
  = existsb (has_url u') l.
Proof.
  intros Hne. induction l as [|r l IH]; simpl; [reflexivity|].
  destruct (has_url u r) eqn:E; simpl.
  - rewrite IH. destruct (has_url u' r) eqn:E'; [|reflexivity].
    unfold has_url in E, E'.
    apply String.eqb_eq in E. apply String.eqb_eq in E'. congruence.
  - now rewrite IH.
Qed.

Lemma url_exists_save dump t u d now u' :
  url_exists (save_community_data dump t u d now) u'
  = (String.eqb u u' || url_exists t u')%bool.
Proof.
  rewrite !url_exists_existsb. unfold save_community_data. cbn [rows].
  rewrite existsb_app. cbn [existsb]. rewrite orb_false_r.
  match goal with
  | |- context [has_url u' (Build_row ?a ?b ?c ?e ?f)] =>
      change (has_url u' (Build_row a b c e f)) with (String.eqb b u')
  end.
  destruct (String.eqb u u') eqn:E.
  - now rewrite orb_true_r.
  - rewrite orb_false_r. apply existsb_filter_other.
    apply String.eqb_neq in E. congruence.
Qed.

Lemma find_filter_self u l :
  find (has_url u) (filter (fun r => negb (has_url u r)) l) = None.
Proof.
  induction l as [|r l IH]; simpl; [reflexivity|].
  destruct (has_url u r) eqn:E; simpl; [exact IH|].
  now rewrite E.
Qed.

Lemma find_app_none {A} (f : A -> bool) l1 l2 :
  find f l1 = None -> find f (l1 ++ l2) = find f l2.
Proof.
  induction l1 as [|x l IH]; simpl; [reflexivity|].
  destruct (f x); [discriminate | exact IH].
Qed.

Lemma get_row_save dump t u d now :
  get_row (save_community_data dump t u d now) u
  = Some {| id := seq t + 1; url := u; enriched_data := dump d;
            created_at := now; updated_at := now |}.
Proof.
  unfold get_row, save_community_data. simpl rows.
  rewrite find_app_none by apply find_filter_self.
  simpl. unfold has_url. simpl url. now rewrite String.eqb_refl.
Qed.

End DatabaseFacts.

Module OrchestratorFacts.
Import Database Orchestrator DatabaseFacts.

Section Run.
Variable dump : CommunityInfo -> string.
Variable agent : nat -> string -> option CommunityInfo.
Variable now : nat -> timestamp.




Lemma process_url_failed_mono idx u st : failed st <= failed (process_url dump agent now idx u st).
Proof.
  unfold process_url.
  destruct (url_exists (db st) u); [simpl; lia|].
  destruct (agent idx u); simpl; lia.
Qed.

Lemma process_urls_failed_mono urls : forall idx st,
  failed st <= failed (process_urls dump agent now idx urls st).
Proof.
  induction urls as [|u rest IH]; intros idx st; simpl; [lia|].
  pose proof (process_url_failed_mono idx u st). pose proof (IH (S idx) (process_url dump agent now idx u st)). lia.
Qed.

Lemma process_url_keeps idx u st u' :
  url_exists (db st) u' = true -> url_exists (db (process_url dump agent now idx u st)) u' = true.
Proof.
  intros H. unfold process_url.
  destruct (url_exists (db st) u); [exact H|].
  destruct (agent idx u); simpl; [|exact H].
  rewrite url_exists_save, H. apply orb_true_r.
Qed.

Lemma process_urls_keeps urls : forall idx st u',
  url_exists (db st) u' = true -> url_exists (db (process_urls dump agent now idx urls st)) u' = true.
Proof.
  induction urls as [|u rest IH]; intros idx st u' H; simpl; [exact H|].
  apply IH. now apply process_url_keeps.
Qed.

Lemma process_url_stored idx u st :
  failed (process_url dump agent now idx u st) = failed st -> url_exists (db (process_url dump agent now idx u st)) u = true.
Proof.
  unfold process_url.
  destruct (url_exists (db st) u) eqn:E; [intros _; exact E|].
  destruct (agent idx u); simpl.
  - intros _. rewrite url_exists_save, String.eqb_refl. reflexivity.
  - lia.
Qed.

Lemma no_failure_all_stored urls : forall idx st,
  failed (process_urls dump agent now idx urls st) = failed st ->
  forall u, In u urls -> url_exists (db (process_urls dump agent now idx urls st)) u = true.
Proof.
  induction urls as [|u rest IH]; intros idx st Hf u' Hin; [destruct Hin|].
  simpl process_urls in *.
  pose proof (process_url_failed_mono idx u st) as M1.
  pose proof (process_urls_failed_mono rest (S idx) (process_url dump agent now idx u st)) as M2.
  destruct Hin as [<-|Hin].
  - apply process_urls_keeps. apply process_url_stored. lia.
  - apply IH; [lia | exact Hin].
Qed.

Lemma all_stored_skips urls : forall idx st,
  (forall u, In u urls -> url_exists (db st) u = true) ->
  process_urls dump agent now idx urls st
  = {| db := db st; processed := processed st;
       skipped := skipped st + total urls;
       failed := failed st; enriched := enriched st |}.
Proof.
  unfold total.
  induction urls as [|u rest IH]; intros idx st Hall.
  - simpl. destruct st; simpl. f_equal. lia.
  - assert (Hs : process_url dump agent now idx u st
                 = {| db := db st; processed := processed st;
                      skipped := skipped st + 1;
                      failed := failed st; enriched := enriched st |}).
    { unfold process_url. now rewrite (Hall u (or_introl eq_refl)). }
    simpl process_urls. rewrite Hs, IH; simpl.
    + f_equal. lia.
    + intros u' Hin. apply Hall. now right.
Qed.

End Run.
End OrchestratorFacts.

(* ================================================================= *)
(** ** The transformer's rules *)

Import Transformer HeapFacts TransformerFacts.

(** What a successful transform of a payload dict returns: a document in
    which every key reads as [document] lists it. *)
Lemma transform_fields date ts h p es url pm :
  closed h = true -> deref h p = Some (ODict es) ->
  fst (pricing_model_of (get_or es "pricing_model" VNone) h) = Ok pm ->
  exists doc h' lang fa,
    transform_community_data date ts (VRef p) url h = (Ok doc, h') /\
    fst (py_or (get_or es "focus_areas" VNone) (VStr "") (h ++ [OList []])) = Ok fa /\
    (forall k, field h' doc k =
               match document date ts url es (List.length h) lang pm fa with
               | ODict entries => dict_get k entries
               | OList _ => None
               end) /\
    (forall a o, deref (h ++ [OList []; ODict []; ODict []]) a = Some o ->
                 deref h' a = Some o).
Proof.
  intros Hc Hp Hpm.
  destruct (transform_ok date ts h p es url pm Hc Hp Hpm) as (lang & fa & _ & Hfa & Heq).
  eexists _, _, lang, fa. split; [exact Heq|]. split; [exact Hfa|]. split.
  - intros k. now rewrite field_fresh.
  - intros a o Ha.
    change (h ++ [OList []; ODict []; ODict []; OList []; OList []; OList []; OList []]
              ++ [document date ts url es (List.length h) lang pm fa])
      with (h ++ [OList []; ODict []; ODict []]
              ++ [OList []; OList []; OList []; OList [];
                  document date ts url es (List.length h) lang pm fa]).
    rewrite app_assoc. now apply deref_app.
Qed.




(** C6, as amended. The transform maps the pricing model "free" to FREE,
    "Freemium Plan" to FREE, "Freemium" to FREEMIUM and "Subscription" to
    PAID. *)
Theorem pricing_examples date ts h p es url s expected :
  closed h = true ->
  deref h p = Some (ODict es) ->
  get_or es "pricing_model" VNone = VStr s ->
  In (s, expected)
     [ ("free", "FREE"); ("Freemium Plan", "FREE");
       ("Freemium", "FREEMIUM"); ("Subscription", "PAID") ] ->
  exists doc h',
    transform_community_data date ts (VRef p) url h = (Ok doc, h') /\
    field h' doc "pricing_model" = Some (VStr expected).
Proof.
  intros Hc Hp Hpm Hin.
  assert (Hs : fst (pricing_model_of (get_or es "pricing_model" VNone) h)
               = Ok (VStr expected)).
  { rewrite Hpm. simpl in Hin.
    destruct Hin as [E|[E|[E|[E|[]]]]]; injection E as <- <-; reflexivity. }
  destruct (transform_fields date ts h p es url _ Hc Hp Hs)
    as (doc & h' & lang & fa & Heq & _ & Hf & _).
  exists doc, h'. split; [exact Heq|]. now rewrite Hf.
Qed.

(** The examples above at the sample payload with pricing model
    "Freemium Plan". *)
Lemma pricing_examples_witness :
  exists doc h',
    transform_community_data Samples.date Samples.stamp (VRef 4%nat) "http://a"
      (Samples.loaded_heap
         (Samples.payload (JStr "https://a.org") (JStr "Freemium Plan") JNull))
    = (Ok doc, h') /\
    field h' doc "pricing_model" = Some (VStr "FREE").
Proof.
  exact (pricing_examples Samples.date Samples.stamp
           (Samples.loaded_heap
              (Samples.payload (JStr "https://a.org") (JStr "Freemium Plan") JNull))
           4%nat
           (Samples.entries_of
              (Samples.loaded_heap
                 (Samples.payload (JStr "https://a.org") (JStr "Freemium Plan") JNull))
              (VRef 4%nat))
           "http://a" "Freemium Plan" "FREE" eq_refl eq_refl eq_refl
           (or_intror (or_introl eq_refl))).
Defined.

(** "Freemium Plan" is not mapped to PAID: upper-cased it is not in the
    closed set, lower-cased it contains "free", so the document's pricing
    model is FREE. *)
Lemma pricing_examples_counterexample :
  Samples.result_field
    (Samples.transformed
       (Samples.payload (JStr "https://a.org") (JStr "Freemium Plan") JNull)
       "http://a")
    "pricing_model" = Some (VStr "FREE")
  /\ PyStr.str_in "free" (PyStr.lower (PyStr.upper "Freemium Plan")) = true
  /\ Some (VStr "FREE") <> Some (VStr "PAID").
Proof. repeat split. discriminate. Qed.

(** C9. A payload whose pricing model is present and is the empty string is
    transformed to a document whose pricing model is null, as a payload
    without pricing model is: it is coerced neither to PAID nor to FREE. *)
Theorem empty_pricing_model_is_null date ts h p es url :
  closed h = true ->
  deref h p = Some (ODict es) ->
  dict_get "pricing_model" es = Some (VStr "") ->
  exists doc h',
    transform_community_data date ts (VRef p) url h = (Ok doc, h') /\
    field h' doc "pricing_model" = Some VNone /\
    fst (pricing_model_of (VStr "") h) = fst (pricing_model_of VNone h).
Proof.
  intros Hc Hp Hpm.
  assert (Hg : get_or es "pricing_model" VNone = VStr "").
  { unfold get_or. now rewrite Hpm. }
  destruct (transform_fields date ts h p es url VNone Hc Hp
              ltac:(rewrite Hg; reflexivity))
    as (doc & h' & lang & fa & Heq & _ & Hf & _).
  exists doc, h'. split; [exact Heq|]. split; [now rewrite Hf | reflexivity].
Qed.

(** The property above at the sample payload with an empty pricing model. *)
Lemma empty_pricing_model_witness :
  exists doc h',
    transform_community_data Samples.date Samples.stamp (VRef 4%nat) "http://a"
      (Samples.loaded_heap (Samples.payload (JStr "https://a.org") (JStr "") JNull))
    = (Ok doc, h') /\
    field h' doc "pricing_model" = Some VNone /\
    fst (pricing_model_of (VStr "")
           (Samples.loaded_heap
              (Samples.payload (JStr "https://a.org") (JStr "") JNull)))
    = fst (pricing_model_of VNone
             (Samples.loaded_heap
                (Samples.payload (JStr "https://a.org") (JStr "") JNull))).
Proof.
  exact (empty_pricing_model_is_null Samples.date Samples.stamp
           (Samples.loaded_heap
              (Samples.payload (JStr "https://a.org") (JStr "") JNull))
           4%nat
           (Samples.entries_of
              (Samples.loaded_heap
                 (Samples.payload (JStr "https://a.org") (JStr "") JNull))
              (VRef 4%nat))
           "http://a" eq_refl eq_refl eq_refl).
Defined.

(** C8, as amended. For every payload mapping whose pricing model is an
    optional string, the document's website is the source URL when the
    payload has no website key; its tags are a fresh empty list when the
    payload has no tags key; its social links and community info are fresh
    empty mappings when their key is missing; its focus areas are the empty
    string when the payload's are null or missing. A website, tags, social
    links or community info that the payload holds is passed on as it is,
    null included. *)
Theorem defaults_rule date ts h p es url (pm : option string) :
  closed h = true ->
  deref h p = Some (ODict es) ->
  get_or es "pricing_model" VNone = opt_str pm ->
  exists doc h' no_tags no_links no_info,
    transform_community_data date ts (VRef p) url h = (Ok doc, h') /\
    (deref h no_tags = None /\ deref h' no_tags = Some (OList [])) /\
    (deref h no_links = None /\ deref h' no_links = Some (ODict [])) /\
    (deref h no_info = None /\ deref h' no_info = Some (ODict [])) /\
    field h' doc "website" = Some (get_or es "website" (VStr url)) /\
    field h' doc "tags" = Some (get_or es "tags" (VRef no_tags)) /\
    field h' doc "social_links" = Some (get_or es "social_links" (VRef no_links)) /\
    field h' doc "community_info" = Some (get_or es "community_info" (VRef no_info)) /\
    (get_or es "focus_areas" VNone = VNone ->
     field h' doc "focus_areas" = Some (VStr "")).
Proof.
  intros Hc Hp Hpm.
  destruct (transform_fields date ts h p es url _ Hc Hp
              ltac:(rewrite Hpm, pricing_model_of_opt; reflexivity))
    as (doc & h' & lang & fa & Heq & Hfa & Hf & Hkeep).
  assert (Hnone : forall n : nat, deref h (List.length h + n)%nat = None).
  { intros n. apply nth_error_None. lia. }
  assert (Hnew : forall (n : nat) o,
             nth_error [OList []; ODict []; ODict []] n = Some o ->
             deref h' (List.length h + n)%nat = Some o).
  { intros n o Hn. apply Hkeep. unfold deref.
    rewrite nth_error_app2 by lia.
    now replace (List.length h + n - List.length h)%nat with n by lia. }
  exists doc, h', (List.length h + 0)%nat, (List.length h + 1)%nat,
    (List.length h + 2)%nat.
  split; [exact Heq|].
  split; [split; [apply Hnone | now apply Hnew]|].
  split; [split; [apply Hnone | now apply Hnew]|].
  split; [split; [apply Hnone | now apply Hnew]|].
  rewrite !Hf, Nat.add_0_r. simpl.
  repeat split.
  intros Hnull. rewrite Hnull in Hfa. simpl in Hfa. congruence.
Qed.

(** The defaults above at a payload that has neither website, tags, social
    links, community info nor focus areas. *)
Lemma defaults_rule_witness :
  exists doc h' no_tags no_links no_info,
    transform_community_data Samples.date Samples.stamp (VRef 0%nat) "http://a"
      [ODict [("name", VStr "A")]] = (Ok doc, h') /\
    (deref [ODict [("name", VStr "A")]] no_tags = None
     /\ deref h' no_tags = Some (OList [])) /\
    (deref [ODict [("name", VStr "A")]] no_links = None
     /\ deref h' no_links = Some (ODict [])) /\
    (deref [ODict [("name", VStr "A")]] no_info = None
     /\ deref h' no_info = Some (ODict [])) /\
    field h' doc "website" = Some (VStr "http://a") /\
    field h' doc "tags" = Some (VRef no_tags) /\
    field h' doc "social_links" = Some (VRef no_links) /\
    field h' doc "community_info" = Some (VRef no_info) /\
    (VNone = VNone -> field h' doc "focus_areas" = Some (VStr "")).
Proof.
  exact (defaults_rule Samples.date Samples.stamp
           [ODict [("name", VStr "A")]] 0%nat [("name", VStr "A")] "http://a" None
           eq_refl eq_refl eq_refl).
Defined.

(** On a payload that holds every key and represents the missing website by
    null, the document's website is null, not the source URL. *)
Lemma defaults_rule_counterexample :
  Samples.result_field
    (Samples.transformed
       (Samples.payload JNull (JStr "free") JNull) "http://a")
    "website" = Some VNone
  /\ field (Samples.loaded_heap (Samples.payload JNull (JStr "free") JNull))
       (Samples.loaded_value (Samples.payload JNull (JStr "free") JNull))
       "website" = Some VNone
  /\ Some VNone <> Some (VStr "http://a").
Proof. repeat split. discriminate. Qed.

(** C10. Whatever the payload and the URL, [transform_community_data] only
    allocates: every object that was in the heap before the call is there,
    unchanged, after it, so the payload reads back as the same structure. *)
Theorem transform_does_not_mutate date ts sqlite_data url h :
  (exists fresh,
      snd (transform_community_data date ts sqlite_data url h) = h ++ fresh) /\
  (forall a o,
      deref h a = Some o ->
      deref (snd (transform_community_data date ts sqlite_data url h)) a = Some o) /\
  (forall fuel j,
      snapshot fuel h sqlite_data = Some j ->
      snapshot fuel (snd (transform_community_data date ts sqlite_data url h))
        sqlite_data = Some j).
Proof.
  destruct (extends_transform date ts sqlite_data url h) as [fresh Hh].
  rewrite Hh. split; [now exists fresh|]. split.
  - intros a o. apply deref_app.
  - intros fuel j. apply snapshot_app.
Qed.

(* ================================================================= *)
(** ** The record store *)

Import Database DatabaseFacts.

(** C2. Saving a payload for a URL that has a stored record replaces the
    record by a new row: the payload is the new one and [updated_at] is the
    time of the call, but [created_at] is the time of the call too, not the
    one stored. Saved first at time 100 and again at time 200, the record of
    "http://a" ends with [created_at] 200. *)
Theorem save_community_data_resets_created_at :
  (forall dump t u d now,
      get_row (save_community_data dump t u d now) u
      = Some {| id := seq t + 1; url := u; enriched_data := dump d;
                created_at := now; updated_at := now |}) /\
  (let first := save_community_data Samples.dump empty "http://a"
                  (Samples.info (Some "free")) 100 in
   let second := save_community_data Samples.dump first "http://a"
                   (Samples.info (Some "paid")) 200 in
   option_map created_at (get_row first "http://a") = Some 100 /\
   get_row second "http://a"
   = Some {| id := 2; url := "http://a";
             enriched_data := "Women Who Code: paid";
             created_at := 200; updated_at := 200 |}).
Proof.
  split; [apply get_row_save|]. split; reflexivity.
Qed.

(* ================================================================= *)
(** ** The orchestrator *)

Import Orchestrator OrchestratorFacts.


(** C4. When a run over a list of URLs ends without a failure, a second run
    over the same list against the store the first one left calls the agent
    for no URL, counts every URL as skipped, and leaves the store as it is. *)
Theorem second_run_skips_everything
    (dump : CommunityInfo -> string)
    (agent1 agent2 : nat -> string -> option CommunityInfo)
    (now1 now2 : nat -> timestamp)
    (urls : list string) (file : option table) :
  failed (process_communities dump agent1 now1 urls file) = 0 ->
  let first := process_communities dump agent1 now1 urls file in
  let second := process_communities dump agent2 now2 urls (Some (db first)) in
  enriched second = [] /\
  skipped second = total urls /\
  processed second = 0 /\
  failed second = 0 /\
  db second = db first.
Proof.
  intros Hf first second.
  assert (Hall : forall u, In u urls -> url_exists (db first) u = true).
  { apply no_failure_all_stored. exact Hf. }
  unfold second, process_communities at 1 2 3 4 5.
  rewrite all_stored_skips by exact Hall.
  simpl. repeat split.
Qed.

(** The property above on the list of two sites, from a store without table,
    with an agent that succeeds in the first run and is down in the second. *)
Lemma second_run_witness :
  enriched (process_communities Samples.dump Samples.agent_down Samples.tick
              ["siteA.com"; "siteB.com"]
              (Some (db (process_communities Samples.dump Samples.agent_ok
                           Samples.tick ["siteA.com"; "siteB.com"] None)))) = [] /\
  skipped (process_communities Samples.dump Samples.agent_down Samples.tick
             ["siteA.com"; "siteB.com"]
             (Some (db (process_communities Samples.dump Samples.agent_ok
                          Samples.tick ["siteA.com"; "siteB.com"] None))))
  = total ["siteA.com"; "siteB.com"] /\
  processed (process_communities Samples.dump Samples.agent_down Samples.tick
               ["siteA.com"; "siteB.com"]
               (Some (db (process_communities Samples.dump Samples.agent_ok
                            Samples.tick ["siteA.com"; "siteB.com"] None)))) = 0 /\
  failed (process_communities Samples.dump Samples.agent_down Samples.tick
            ["siteA.com"; "siteB.com"]
            (Some (db (process_communities Samples.dump Samples.agent_ok
                         Samples.tick ["siteA.com"; "siteB.com"] None)))) = 0 /\
  db (process_communities Samples.dump Samples.agent_down Samples.tick
        ["siteA.com"; "siteB.com"]
        (Some (db (process_communities Samples.dump Samples.agent_ok
                     Samples.tick ["siteA.com"; "siteB.com"] None))))
  = db (process_communities Samples.dump Samples.agent_ok Samples.tick
          ["siteA.com"; "siteB.com"] None).
Proof.
  exact (second_run_skips_everything Samples.dump Samples.agent_ok
           Samples.agent_down Samples.tick Samples.tick
           ["siteA.com"; "siteB.com"] None eq_refl).
Defined.

(* ================================================================= *)
(** ** The batch loader *)

Import Loader.

(** C1. A store of five records is loaded into a collection that accepts all
    but the third document of a batch. Whether the batch is sent from the
    loop (batch size 5) or after it (batch size 100), the summary counts no
    document as loaded and four as failed: the handler of [BulkWriteError]
    adds the number of accepted documents to [failed] and nothing to
    [processed]. *)
Theorem partial_rejection_counts :
  (exists c,
      load_sqlite_to_mongodb Samples.parse Samples.batches Samples.rejects_third
        Samples.today 5 (Samples.store 5) []
      = Ok (Some {| total_communities := 5; loaded := 0; not_loaded := 4 |}, c)) /\
  (exists c,
      load_sqlite_to_mongodb Samples.parse Samples.batches Samples.rejects_third
        Samples.today 100 (Samples.store 5) []
      = Ok (Some {| total_communities := 5; loaded := 0; not_loaded := 4 |}, c)).
Proof. split; eexists; vm_compute; reflexivity. Qed.

(** C7. A store of three records is loaded, with batch size 2, into a
    collection that cannot be reached at the first call. The failed call
    adds one to [failed], not two, and keeps the two documents: they are
    sent again, with the third, and are loaded. When the call that fails is
    the one after the loop (batch size 100), the exception leaves the
    function and no summary is logged. *)
Theorem unreachable_destination_counts :
  (exists d1 d2 d3,
      load_sqlite_to_mongodb Samples.parse Samples.batches Samples.down_once
        Samples.today 2 (Samples.store 3) []
      = Ok (Some {| total_communities := 3; loaded := 3; not_loaded := 1 |},
            [[d1; d2]; [d1; d2; d3]])) /\
  load_sqlite_to_mongodb Samples.parse Samples.batches Samples.down_once
    Samples.today 100 (Samples.store 3) []
  = Raise ServerSelectionTimeoutError.
Proof. split; [do 3 eexists|]; vm_compute; reflexivity. Qed.

(* ================================================================= *)
(** ** More on the record store *)

Import StoreInvariant.

Lemma get_row_save_other dump t u d now u' :
  u' <> u ->
  get_row (save_community_data dump t u d now) u' = get_row t u'.
Proof.
  intros Hne. unfold get_row, save_community_data. cbn [rows].
  assert (Hnew : forall r, url r = u -> has_url u' r = false).
  { intros r <-. unfold has_url. apply String.eqb_neq. congruence. }
  induction (rows t) as [|r l IH]; cbn [filter app find].
  - rewrite Hnew; reflexivity.
  - destruct (has_url u r) eqn:E; cbn [negb].
    + rewrite IH. unfold has_url in E. apply String.eqb_eq in E.
      now rewrite (Hnew r E).
    + cbn [app find]. destruct (has_url u' r); [reflexivity | exact IH].
Qed.

(** X1. Looking a URL up after a save: the URL that was saved reads back
    the serialized payload just written, and every other URL reads back what
    it read before. *)
Theorem get_community_data_after_save dump t u d now u' :
  get_community_data (save_community_data dump t u d now) u'
  = if String.eqb u u' then Some (dump d) else get_community_data t u'.
Proof.
  unfold get_community_data.
  destruct (String.eqb u u') eqn:E.
  - apply String.eqb_eq in E. subst u'. now rewrite get_row_save.
  - apply String.eqb_neq in E. rewrite get_row_save_other by congruence.
    reflexivity.
Qed.

(** The URLs of the rows, in the order of the rows: the first column of
    [SELECT url, enriched_data FROM communities], the scan of the loader. *)
Lemma scanned_urls t : map fst (select_rows t) = map url (rows t).
Proof. unfold select_rows. rewrite map_map. reflexivity. Qed.

Lemma row_urls_save dump t u d now :
  map url (rows (save_community_data dump t u d now))
  = filter (fun x => negb (String.eqb x u)) (map url (rows t)) ++ [u].
Proof.
  unfold save_community_data. cbn [rows].
  rewrite map_app. cbn [map url]. f_equal.
  induction (rows t) as [|r l IH]; [reflexivity|].
  cbn [filter map]. unfold has_url at 1.
  destruct (String.eqb (url r) u); cbn [negb map]; now rewrite IH.
Qed.

Lemma In_insert_url x u l : In x (insert_url u l) <-> x = u \/ In x l.
Proof.
  induction l as [|y r IH]; cbn [insert_url].
  - cbn. intuition.
  - destruct (String.leb u y); cbn [In]; [intuition|].
    rewrite IH. intuition.
Qed.

Lemma NoDup_insert_url u l : NoDup (insert_url u l) <-> NoDup (u :: l).
Proof.
  induction l as [|y r IH]; cbn [insert_url]; [reflexivity|].
  destruct (String.leb u y); [reflexivity|].
  rewrite !NoDup_cons_iff, In_insert_url, IH, NoDup_cons_iff. cbn [In].
  intuition congruence.
Qed.

Lemma In_index_order x l : In x (fold_right insert_url [] l) <-> In x l.
Proof.
  induction l as [|y r IH]; cbn [fold_right]; [reflexivity|].
  rewrite In_insert_url, IH. cbn [In]. intuition.
Qed.

Lemma NoDup_index_order l : NoDup (fold_right insert_url [] l) <-> NoDup l.
Proof.
  induction l as [|y r IH]; cbn [fold_right]; [reflexivity|].
  rewrite NoDup_insert_url, !NoDup_cons_iff, In_index_order, IH. reflexivity.
Qed.

Lemma unique_urls_rows t : unique_urls t <-> NoDup (map url (rows t)).
Proof. unfold unique_urls, get_all_urls. apply NoDup_index_order. Qed.

Lemma In_get_all_urls t u : In u (get_all_urls t) <-> url_exists t u = true.
Proof.
  rewrite url_exists_existsb, existsb_exists. unfold get_all_urls.
  rewrite In_index_order, in_map_iff. split.
  - intros (r & <- & Hin). exists r. split; [exact Hin|].
    unfold has_url. apply String.eqb_refl.
  - intros (r & Hin & Hr). exists r. split; [|exact Hin].
    unfold has_url in Hr. now apply String.eqb_eq.
Qed.

(** X2. The three queries of the store agree: [url_exists] answers true
    exactly for the URLs [get_all_urls] lists, and exactly for the URLs
    [get_community_data] finds data for. *)
Theorem store_queries_agree t u :
  (url_exists t u = true <-> In u (get_all_urls t)) /\
  (url_exists t u = true <-> get_community_data t u <> None).
Proof.
  split; [symmetry; apply In_get_all_urls|].
  rewrite url_exists_existsb. unfold get_community_data, get_row.
  destruct (find (has_url u) (rows t)) as [r|] eqn:F; simpl.
  - split; [discriminate|]. intros _.
    apply existsb_exists. exists r.
    destruct (find_some _ _ F). now split.
  - split; [|congruence]. intros H. apply existsb_exists in H.
    destruct H as (r & Hin & Hr).
    now rewrite (find_none _ _ F r Hin) in Hr.
Qed.

(** X3. A save keeps the store to one row per URL; it drops the row the URL
    had and appends the new one, so that in the scan of the loader the saved
    URL comes last and the others keep their order. *)
Theorem save_keeps_urls_unique dump t u d now :
  unique_urls t ->
  unique_urls (save_community_data dump t u d now) /\
  map fst (select_rows (save_community_data dump t u d now))
  = filter (fun x => negb (String.eqb x u)) (map fst (select_rows t)) ++ [u].
Proof.
  intros Hu. split; [|rewrite !scanned_urls; apply row_urls_save].
  apply unique_urls_rows. apply unique_urls_rows in Hu.
  rewrite row_urls_save.
  apply NoDup_app.
  - now apply NoDup_filter.
  - repeat constructor. intros [].
  - intros x Hx [<-|[]]. apply filter_In in Hx.
    destruct Hx as [_ Hx]. now rewrite String.eqb_refl in Hx.
Qed.

(** The store after a save of a URL it holds, first of two. *)
Lemma save_keeps_urls_unique_witness :
  unique_urls
    (save_community_data Samples.dump (Samples.store 2) "http://site1"
       (Samples.info None) 2000) /\
  map fst
    (select_rows
       (save_community_data Samples.dump (Samples.store 2) "http://site1"
          (Samples.info None) 2000))
  = filter (fun x => negb (String.eqb x "http://site1"))
      (map fst (select_rows (Samples.store 2))) ++ ["http://site1"].
Proof.
  apply (save_keeps_urls_unique Samples.dump (Samples.store 2) "http://site1"
           (Samples.info None) 2000).
  unfold unique_urls. cbn. repeat constructor; cbn; intuition discriminate.
Defined.

(** X4. Row ids are never reused: when ids are distinct and within the
    counter, they still are after a save, and the saved row's id is larger
    than every id the table held, the id of the row it replaced included. *)
Theorem save_assigns_a_new_id dump t u d now :
  ids_in_sequence t ->
  ids_in_sequence (save_community_data dump t u d now) /\
  option_map id (get_row (save_community_data dump t u d now) u)
  = Some (seq t + 1) /\
  (forall r, In r (rows t) -> id r < seq t + 1).
Proof.
  intros [Hnd Hb]. rewrite Forall_forall in Hb.
  split; [split|split].
  - cbn [save_community_data rows]. rewrite map_app. cbn [map id].
    apply NoDup_app.
    + clear Hb. induction (rows t) as [|r l IH]; [constructor|].
      cbn [map] in Hnd. inversion Hnd as [|? ? Hn Hl]; subst.
      cbn [filter]. destruct (negb (has_url u r)); [|now apply IH].
      cbn [map]. constructor; [|now apply IH].
      intros Hin. apply Hn. apply in_map_iff in Hin.
      destruct Hin as (r' & E & Hin'). apply filter_In in Hin'.
      apply in_map_iff. exists r'. tauto.
    + repeat constructor. intros [].
    + intros x Hx [<-|[]]. apply in_map_iff in Hx.
      destruct Hx as (r & E & Hin). apply filter_In in Hin.
      specialize (Hb r (proj1 Hin)). lia.
  - apply Forall_forall. intros r Hin. cbn [save_community_data rows seq] in *.
    apply in_app_or in Hin. destruct Hin as [Hin|[<-|[]]].
    + apply filter_In in Hin. specialize (Hb r (proj1 Hin)). lia.
    + cbn [id]. lia.
  - now rewrite get_row_save.
  - intros r Hin. specialize (Hb r Hin). lia.
Qed.

(** A second save of the URL the table holds. *)
Lemma save_assigns_a_new_id_witness :
  ids_in_sequence
    (save_community_data Samples.dump
       (save_community_data Samples.dump empty "http://a"
          (Samples.info None) 100)
       "http://a" (Samples.info None) 200) /\
  option_map id
    (get_row
       (save_community_data Samples.dump
          (save_community_data Samples.dump empty "http://a"
             (Samples.info None) 100)
          "http://a" (Samples.info None) 200) "http://a")
  = Some (seq (save_community_data Samples.dump empty "http://a"
                 (Samples.info None) 100) + 1) /\
  (forall r,
      In r (rows (save_community_data Samples.dump empty "http://a"
                    (Samples.info None) 100)) ->
      id r < seq (save_community_data Samples.dump empty "http://a"
                    (Samples.info None) 100) + 1).
Proof.
  apply (save_assigns_a_new_id Samples.dump
           (save_community_data Samples.dump empty "http://a"
              (Samples.info None) 100)
           "http://a" (Samples.info None) 200).
  split; simpl.
  - repeat constructor. intros [].
  - repeat constructor. cbn. lia.
Defined.

(* ================================================================= *)
(** ** More on the orchestrator *)

Lemma save_new_url_rows dump t u d now :
  url_exists t u = false ->
  rows (save_community_data dump t u d now)
  = rows t ++ [{| id := seq t + 1; url := u; enriched_data := dump d;
                  created_at := now; updated_at := now |}].
Proof.
  rewrite url_exists_existsb. intros H.
  unfold save_community_data. cbn [rows]. f_equal.
  induction (rows t) as [|r l IH]; [reflexivity|].
  cbn [existsb] in H. apply orb_false_iff in H. destruct H as [Hr Hl].
  cbn [filter]. rewrite Hr. cbn [negb]. now rewrite IH.
Qed.

Lemma unique_urls_save dump t u d now :
  unique_urls t -> unique_urls (save_community_data dump t u d now).
Proof.
  intros Hu. apply unique_urls_rows. apply unique_urls_rows in Hu.
  rewrite row_urls_save.
  apply NoDup_app.
  - now apply NoDup_filter.
  - repeat constructor. intros [].
  - intros x Hx [<-|[]]. apply filter_In in Hx.
    destruct Hx as [_ Hx]. now rewrite String.eqb_refl in Hx.
Qed.

Section MoreRun.

Variable dump : CommunityInfo -> string.
Variable agent : nat -> string -> option CommunityInfo.
Variable now : nat -> timestamp.

Lemma process_urls_calls urls : forall idx st,
  Z.of_nat (List.length (enriched (process_urls dump agent now idx urls st)))
  - Z.of_nat (List.length (enriched st))
  = (Orchestrator.processed (process_urls dump agent now idx urls st)
     - Orchestrator.processed st)
    + (Orchestrator.failed (process_urls dump agent now idx urls st)
       - Orchestrator.failed st).
Proof.
  induction urls as [|u rest IH]; intros idx st; cbn [process_urls]; [lia|].
  specialize (IH (S idx) (process_url dump agent now idx u st)).
  assert (Hs : Z.of_nat (List.length (enriched (process_url dump agent now idx u st)))
               - Z.of_nat (List.length (enriched st))
               = (Orchestrator.processed (process_url dump agent now idx u st)
                  - Orchestrator.processed st)
                 + (Orchestrator.failed (process_url dump agent now idx u st)
                    - Orchestrator.failed st)).
  { unfold process_url. destruct (url_exists (db st) u); [cbn; lia|].
    destruct (agent idx u); cbn; rewrite length_app; cbn; lia. }
  lia.
Qed.

Lemma process_urls_rows urls : forall idx st,
  Z.of_nat (List.length (rows (db (process_urls dump agent now idx urls st))))
  = Z.of_nat (List.length (rows (db st)))
    + (Orchestrator.processed (process_urls dump agent now idx urls st)
       - Orchestrator.processed st).
Proof.
  induction urls as [|u rest IH]; intros idx st; cbn [process_urls]; [lia|].
  rewrite IH.
  assert (Hs : Z.of_nat (List.length (rows (db (process_url dump agent now idx u st))))
               = Z.of_nat (List.length (rows (db st)))
                 + (Orchestrator.processed (process_url dump agent now idx u st)
                    - Orchestrator.processed st)).
  { unfold process_url. destruct (url_exists (db st) u) eqn:E; [cbn; lia|].
    destruct (agent idx u); cbn [db Orchestrator.processed]; [|lia].
    rewrite save_new_url_rows by exact E. rewrite length_app. cbn. lia. }
  lia.
Qed.

Lemma process_urls_frame urls u' : forall idx st,
  url_exists (db st) u' = true \/ ~ In u' urls ->
  get_row (db (process_urls dump agent now idx urls st)) u' = get_row (db st) u'.
Proof.
  induction urls as [|u rest IH]; intros idx st H; cbn [process_urls]; [reflexivity|].
  assert (Hs : get_row (db (process_url dump agent now idx u st)) u'
               = get_row (db st) u').
  { unfold process_url. destruct (url_exists (db st) u) eqn:E; [reflexivity|].
    destruct (agent idx u); [|reflexivity]. cbn [db].
    apply get_row_save_other. intros ->.
    destruct H as [H|H]; [congruence | apply H; now left]. }
  rewrite IH; [exact Hs|].
  destruct H as [H|H].
  - left. now apply process_url_keeps.
  - right. intros Hin. apply H. now right.
Qed.

Lemma process_urls_unique urls : forall idx st,
  unique_urls (db st) ->
  unique_urls (db (process_urls dump agent now idx urls st)).
Proof.
  induction urls as [|u rest IH]; intros idx st H; cbn [process_urls]; [exact H|].
  apply IH. unfold process_url.
  destruct (url_exists (db st) u); [exact H|].
  destruct (agent idx u); [|exact H]. cbn [db]. now apply unique_urls_save.
Qed.

Lemma process_urls_calls_new urls u : forall idx st,
  In u (enriched (process_urls dump agent now idx urls st)) ->
  In u (enriched st) \/ (In u urls /\ url_exists (db st) u = false).
Proof.
  induction urls as [|x rest IH]; intros idx st; cbn [process_urls]; [auto|].
  intros Hin. destruct (IH _ _ Hin) as [H|[Hr He]].
  - unfold process_url in H. destruct (url_exists (db st) x) eqn:E; [auto|].
    assert (Hx : In u (enriched st ++ [x])) by (destruct (agent idx x); exact H).
    apply in_app_or in Hx. destruct Hx as [Hx|[<-|[]]]; [auto|].
    right. split; [now left | exact E].
  - right. split; [now right|].
    destruct (url_exists (db st) u) eqn:E; [|reflexivity].
    now rewrite (process_url_keeps dump agent now idx x st u E) in He.
Qed.

Hypothesis agent_never_fails : forall idx u, agent idx u <> None.

Lemma process_urls_once urls : forall idx st,
  NoDup (enriched st) ->
  (forall u, In u (enriched st) -> url_exists (db st) u = true) ->
  exists new,
    enriched (process_urls dump agent now idx urls st) = enriched st ++ new /\
    map url (rows (db (process_urls dump agent now idx urls st)))
    = map url (rows (db st)) ++ new /\
    NoDup (enriched st ++ new).
Proof.
  induction urls as [|u rest IH]; intros idx st Hnd Hst; cbn [process_urls].
  - exists []. rewrite !app_nil_r. auto.
  - unfold process_url.
    destruct (url_exists (db st) u) eqn:E.
    + apply (IH (S idx) {| db := db st;
                           Orchestrator.processed := Orchestrator.processed st;
                           skipped := skipped st + 1;
                           Orchestrator.failed := Orchestrator.failed st;
                           enriched := enriched st |}); assumption.
    + destruct (agent idx u) as [d|] eqn:Ea; [|now apply agent_never_fails in Ea].
      match goal with |- context [process_urls _ _ _ _ _ ?s] => set (st1 := s) end.
      assert (Hnd1 : NoDup (enriched st1)).
      { cbn. apply NoDup_app; [exact Hnd | repeat constructor; intros [] |].
        intros x Hx [<-|[]]. rewrite (Hst _ Hx) in E. discriminate. }
      assert (Hst1 : forall x, In x (enriched st1) -> url_exists (db st1) x = true).
      { cbn. intros x Hx. rewrite url_exists_save.
        apply in_app_or in Hx. destruct Hx as [Hx|[<-|[]]].
        - rewrite (Hst _ Hx). apply orb_true_r.
        - now rewrite String.eqb_refl. }
      destruct (IH (S idx) st1 Hnd1 Hst1) as (new & H1 & H2 & H3).
      exists (u :: new). rewrite H1, H2. cbn [enriched db st1] in *.
      rewrite save_new_url_rows by exact E.
      rewrite map_app. cbn [map url].
      rewrite <- !app_assoc in *. cbn [app] in *. auto.
Qed.

End MoreRun.

(** X5. Every call of the agent is counted once: the number of URLs handed
    to the agent in a run is processed + failed. *)
Theorem agent_calls_are_counted
    (dump : CommunityInfo -> string)
    (agent : nat -> string -> option CommunityInfo)
    (now : nat -> timestamp) (urls : list string) (file : option table) :
  Z.of_nat (List.length
              (enriched (process_communities dump agent now urls file)))
  = Orchestrator.processed (process_communities dump agent now urls file)
    + Orchestrator.failed (process_communities dump agent now urls file).
Proof.
  unfold process_communities.
  match goal with |- context [process_urls _ _ _ ?i _ ?s] =>
    pose proof (process_urls_calls dump agent now urls i s) as H end.
  cbn [enriched Orchestrator.processed Orchestrator.failed List.length] in H. lia.
Qed.

(** X6. The store grows by one row for every URL counted as processed, and
    by nothing else: a skipped or failed URL adds no row and a processed one
    replaces none. *)
Theorem store_grows_by_processed
    (dump : CommunityInfo -> string)
    (agent : nat -> string -> option CommunityInfo)
    (now : nat -> timestamp) (urls : list string) (file : option table) :
  Z.of_nat (List.length
              (rows (db (process_communities dump agent now urls file))))
  = Z.of_nat (List.length (rows (init_database file)))
    + Orchestrator.processed (process_communities dump agent now urls file).
Proof.
  unfold process_communities. rewrite process_urls_rows. cbn. lia.
Qed.

(** X7. A run leaves alone every record that was stored before it, and
    every URL that is not in its list: such a URL reads back the row (id,
    payload, timestamps) it had, or none if it had none. *)
Theorem run_leaves_other_records
    (dump : CommunityInfo -> string)
    (agent : nat -> string -> option CommunityInfo)
    (now : nat -> timestamp) (urls : list string) (file : option table)
    (u : string) :
  url_exists (init_database file) u = true \/ ~ In u urls ->
  get_row (db (process_communities dump agent now urls file)) u
  = get_row (init_database file) u.
Proof.
  intros H. unfold process_communities.
  now rewrite process_urls_frame.
Qed.

(** A run over a list that repeats the URL the store holds. *)
Lemma run_leaves_other_records_witness :
  get_row
    (db (process_communities Samples.dump Samples.agent_ok Samples.tick
           ["http://site1"; "siteB.com"; "http://site1"]
           (Some (Samples.store 1))))
    "http://site1"
  = get_row (init_database (Some (Samples.store 1))) "http://site1".
Proof.
  apply (run_leaves_other_records Samples.dump Samples.agent_ok Samples.tick
           ["http://site1"; "siteB.com"; "http://site1"]
           (Some (Samples.store 1)) "http://site1").
  left. reflexivity.
Defined.

(** X8. A run keeps the store to one row per URL, also when its list repeats
    a URL. *)
Theorem run_keeps_urls_unique
    (dump : CommunityInfo -> string)
    (agent : nat -> string -> option CommunityInfo)
    (now : nat -> timestamp) (urls : list string) (file : option table) :
  unique_urls (init_database file) ->
  unique_urls (db (process_communities dump agent now urls file)).
Proof.
  intros H. unfold process_communities. now apply process_urls_unique.
Qed.

(** A run from a file without table over a list that repeats a URL. *)
Lemma run_keeps_urls_unique_witness :
  unique_urls
    (db (process_communities Samples.dump Samples.agent_ok Samples.tick
           ["siteA.com"; "siteB.com"; "siteA.com"] None)).
Proof.
  apply (run_keeps_urls_unique Samples.dump Samples.agent_ok Samples.tick
           ["siteA.com"; "siteB.com"; "siteA.com"] None).
  constructor.
Defined.

(** X9. With an agent that never fails, no URL is handed to the agent twice
    in a run, even when the list repeats it, and the records of the URLs
    handed to it are appended to the table in the order of the calls: the
    scan of the loader reads the former records, then these. *)
Theorem each_url_is_enriched_once
    (dump : CommunityInfo -> string)
    (agent : nat -> string -> option CommunityInfo)
    (now : nat -> timestamp) (urls : list string) (file : option table) :
  (forall idx u, agent idx u <> None) ->
  NoDup (enriched (process_communities dump agent now urls file)) /\
  map fst (select_rows (db (process_communities dump agent now urls file)))
  = map fst (select_rows (init_database file))
    ++ enriched (process_communities dump agent now urls file).
Proof.
  intros Hok. rewrite !scanned_urls. unfold process_communities.
  match goal with |- context [process_urls _ _ _ ?i _ ?s] =>
    destruct (process_urls_once dump agent now Hok urls i s)
      as (new & H1 & H2 & H3) end.
  - constructor.
  - intros u [].
  - cbn [enriched db app] in *. rewrite H1, H2. auto.
Qed.

(** A run from a file without table over a list that repeats a URL. *)
Lemma each_url_is_enriched_once_witness :
  NoDup
    (enriched (process_communities Samples.dump Samples.agent_ok Samples.tick
                 ["siteB.com"; "siteA.com"; "siteB.com"] None)) /\
  map fst
    (select_rows
       (db (process_communities Samples.dump Samples.agent_ok Samples.tick
              ["siteB.com"; "siteA.com"; "siteB.com"] None)))
  = map fst (select_rows (init_database None))
    ++ enriched (process_communities Samples.dump Samples.agent_ok Samples.tick
                   ["siteB.com"; "siteA.com"; "siteB.com"] None).
Proof.
  apply (each_url_is_enriched_once Samples.dump Samples.agent_ok Samples.tick
           ["siteB.com"; "siteA.com"; "siteB.com"] None).
  intros idx u. discriminate.
Defined.

(** X10. The agent is only called for URLs of the list that the store did
    not hold when the run began: a URL that is cached is never enriched
    again. *)
Theorem cached_urls_are_not_enriched
    (dump : CommunityInfo -> string)
    (agent : nat -> string -> option CommunityInfo)
    (now : nat -> timestamp) (urls : list string) (file : option table)
    (u : string) :
  In u (enriched (process_communities dump agent now urls file)) ->
  In u urls /\ url_exists (init_database file) u = false.
Proof.
  intros Hin. unfold process_communities in Hin.
  apply process_urls_calls_new in Hin. destruct Hin as [[]|H]. exact H.
Qed.

(** A run over two sites, the first of which the store holds. *)
Lemma cached_urls_witness :
  In "siteB.com" ["http://site1"; "siteB.com"] /\
  url_exists (init_database (Some (Samples.store 1))) "siteB.com" = false.
Proof.
  apply (cached_urls_are_not_enriched Samples.dump Samples.agent_ok
           Samples.tick ["http://site1"; "siteB.com"]
           (Some (Samples.store 1)) "siteB.com").
  left. reflexivity.
Defined.

(* ================================================================= *)
(** ** More on the transformer *)

(** The document a payload dict is transformed to, with the language and the
    focus areas the transform computed. *)
Lemma transform_document date ts h p es url (pm : option string) :
  closed h = true -> deref h p = Some (ODict es) ->
  get_or es "pricing_model" VNone = opt_str pm ->
  exists doc h' lang pmv fa,
    transform_community_data date ts (VRef p) url h = (Ok doc, h') /\
    fst (language_of (get_or es "language" VNone) h) = Ok lang /\
    (forall k, field h' doc k =
               match document date ts url es (List.length h) lang pmv fa with
               | ODict entries => dict_get k entries
               | OList _ => None
               end) /\
    (forall a o, deref (h ++ [OList []; ODict []; ODict [];
                              OList []; OList []; OList []; OList []]) a = Some o ->
                 deref h' a = Some o).
Proof.
  intros Hc Hp Hpm.
  destruct (transform_ok date ts h p es url _ Hc Hp
              ltac:(rewrite Hpm, pricing_model_of_opt; reflexivity))
    as (lang & fa & Hl & _ & Heq).
  eexists _, _, lang, _, fa. split; [exact Heq|]. split; [exact Hl|]. split.
  - intros k. now rewrite field_fresh.
  - intros a o Ha. rewrite app_assoc. now apply deref_app.
Qed.

(** X11. The language of a document: the first element of the payload's
    language list; null when the list is empty or the payload has no
    language; and a language that is a string, not a list, is kept as it is
    unless it is empty. *)
Theorem language_rule date ts h p es url (pm : option string) :
  closed h = true ->
  deref h p = Some (ODict es) ->
  get_or es "pricing_model" VNone = opt_str pm ->
  exists doc h',
    transform_community_data date ts (VRef p) url h = (Ok doc, h') /\
    (forall a x rest,
        get_or es "language" VNone = VRef a ->
        deref h a = Some (OList (x :: rest)) ->
        field h' doc "language" = Some x) /\
    (forall a,
        get_or es "language" VNone = VRef a ->
        deref h a = Some (OList []) ->
        field h' doc "language" = Some VNone) /\
    (get_or es "language" VNone = VNone ->
     field h' doc "language" = Some VNone) /\
    (forall s,
        get_or es "language" VNone = VStr s ->
        field h' doc "language"
        = Some (if String.eqb s "" then VNone else VStr s)).
Proof.
  intros Hc Hp Hpm.
  destruct (transform_document date ts h p es url pm Hc Hp Hpm)
    as (doc & h' & lang & pmv & fa & Heq & Hl & Hf & _).
  exists doc, h'. split; [exact Heq|].
  rewrite Hf. cbn [document dict_get String.eqb Ascii.eqb Bool.eqb].
  repeat split.
  - intros a x rest Hv Ha. rewrite Hv in Hl.
    unfold language_of, bind in Hl. rewrite (load_ok _ _ _ Ha) in Hl.
    cbn in Hl. congruence.
  - intros a Hv Ha. rewrite Hv in Hl.
    unfold language_of, bind in Hl. rewrite (load_ok _ _ _ Ha) in Hl.
    cbn in Hl. congruence.
  - intros Hv. rewrite Hv in Hl. cbn in Hl. congruence.
  - intros s Hv. rewrite Hv in Hl. cbn in Hl.
    destruct (String.eqb s ""); cbn in Hl; congruence.
Qed.

(** The sample payload, whose languages are English and French. *)
Lemma language_rule_witness :
  exists doc h',
    transform_community_data Samples.date Samples.stamp (VRef 4%nat) "http://a"
      (Samples.loaded_heap
         (Samples.payload (JStr "https://a.org") (JStr "free") JNull))
    = (Ok doc, h') /\
    field h' doc "language" = Some (VStr "English").
Proof.
  destruct (language_rule Samples.date Samples.stamp
              (Samples.loaded_heap
                 (Samples.payload (JStr "https://a.org") (JStr "free") JNull))
              4%nat
              (Samples.entries_of
                 (Samples.loaded_heap
                    (Samples.payload (JStr "https://a.org") (JStr "free") JNull))
                 (VRef 4%nat))
              "http://a" (Some "free") eq_refl eq_refl eq_refl)
    as (doc & h' & Heq & Hfirst & _).
  exists doc, h'. split; [exact Heq|].
  exact (Hfirst 1%nat (VStr "English") [VStr "French"] eq_refl eq_refl).
Defined.

(** X12. A document is virtual exactly when the payload has neither country
    nor city, a missing key counting as none: any country, "Global"
    included, makes the document non-virtual. The country and the city are
    copied as they are. *)
Theorem virtuality_rule date ts h p es url (pm : option string) :
  closed h = true ->
  deref h p = Some (ODict es) ->
  get_or es "pricing_model" VNone = opt_str pm ->
  exists doc h',
    transform_community_data date ts (VRef p) url h = (Ok doc, h') /\
    field h' doc "is_virtual"
    = Some (VBool match get_or es "country" VNone, get_or es "city" VNone with
                  | VNone, VNone => true
                  | _, _ => false
                  end) /\
    field h' doc "country" = Some (get_or es "country" VNone) /\
    field h' doc "city" = Some (get_or es "city" VNone).
Proof.
  intros Hc Hp Hpm.
  destruct (transform_document date ts h p es url pm Hc Hp Hpm)
    as (doc & h' & lang & pmv & fa & Heq & _ & Hf & _).
  exists doc, h'. split; [exact Heq|].
  rewrite !Hf. cbn [document dict_get String.eqb Ascii.eqb Bool.eqb].
  repeat split.
  destruct (get_or es "country" VNone), (get_or es "city" VNone); reflexivity.
Qed.

(** The sample payload has neither country nor city. *)
Lemma virtuality_rule_witness :
  exists doc h',
    transform_community_data Samples.date Samples.stamp (VRef 4%nat) "http://a"
      (Samples.loaded_heap
         (Samples.payload (JStr "https://a.org") (JStr "free") JNull))
    = (Ok doc, h') /\
    field h' doc "is_virtual" = Some (VBool true) /\
    field h' doc "country" = Some VNone /\
    field h' doc "city" = Some VNone.
Proof.
  exact (virtuality_rule Samples.date Samples.stamp
           (Samples.loaded_heap
              (Samples.payload (JStr "https://a.org") (JStr "free") JNull))
           4%nat
           (Samples.entries_of
              (Samples.loaded_heap
                 (Samples.payload (JStr "https://a.org") (JStr "free") JNull))
              (VRef 4%nat))
           "http://a" (Some "free") eq_refl eq_refl eq_refl).
Defined.

(** X13. The fields the pipeline manages do not depend on the payload: the
    data source is the URL, [created_at] and [updated_at] are the same date,
    [last_verified_at] is the timestamp, [year_founded] is null, [verified]
    is false, and [topics_supported], [audience_type], [event_types] and
    [embedding] are four empty lists, each a new object that nothing else
    refers to: not one list shared by the four fields. *)
Theorem pipeline_fields date ts h p es url (pm : option string) :
  closed h = true ->
  deref h p = Some (ODict es) ->
  get_or es "pricing_model" VNone = opt_str pm ->
  exists doc h' topics audience events embedding,
    transform_community_data date ts (VRef p) url h = (Ok doc, h') /\
    field h' doc "data_source" = Some (VStr url) /\
    field h' doc "created_at" = Some (VStr date) /\
    field h' doc "updated_at" = Some (VStr date) /\
    field h' doc "last_verified_at" = Some (VStr ts) /\
    field h' doc "year_founded" = Some VNone /\
    field h' doc "verified" = Some (VBool false) /\
    field h' doc "topics_supported" = Some (VRef topics) /\
    field h' doc "audience_type" = Some (VRef audience) /\
    field h' doc "event_types" = Some (VRef events) /\
    field h' doc "embedding" = Some (VRef embedding) /\
    NoDup [topics; audience; events; embedding] /\
    Forall (fun a => deref h a = None /\ deref h' a = Some (OList []))
      [topics; audience; events; embedding].
Proof.
  intros Hc Hp Hpm.
  destruct (transform_document date ts h p es url pm Hc Hp Hpm)
    as (doc & h' & lang & pmv & fa & Heq & _ & Hf & Hkeep).
  exists doc, h', (List.length h + 3)%nat, (List.length h + 4)%nat,
    (List.length h + 5)%nat, (List.length h + 6)%nat.
  split; [exact Heq|].
  rewrite !Hf. cbn [document dict_get String.eqb Ascii.eqb Bool.eqb].
  repeat (split; [reflexivity|]).
  split.
  - repeat constructor; cbn [In]; lia.
  - assert (Hnew : forall n : nat,
               (3 <= n < 7)%nat ->
               deref h (List.length h + n)%nat = None /\
               deref h' (List.length h + n)%nat = Some (OList [])).
    { intros n Hn. split; [apply nth_error_None; lia|].
      apply Hkeep. unfold deref. rewrite nth_error_app2 by lia.
      replace (List.length h + n - List.length h)%nat with n by lia.
      destruct n as [|[|[|[|[|[|[|n]]]]]]]; try lia; reflexivity. }
    repeat constructor; apply Hnew; lia.
Qed.

(** The fields of the document of the sample payload. *)
Lemma pipeline_fields_witness :
  exists doc h' topics audience events embedding,
    transform_community_data Samples.date Samples.stamp (VRef 4%nat) "http://a"
      (Samples.loaded_heap
         (Samples.payload (JStr "https://a.org") (JStr "free") JNull))
    = (Ok doc, h') /\
    field h' doc "data_source" = Some (VStr "http://a") /\
    field h' doc "created_at" = Some (VStr Samples.date) /\
    field h' doc "updated_at" = Some (VStr Samples.date) /\
    field h' doc "last_verified_at" = Some (VStr Samples.stamp) /\
    field h' doc "year_founded" = Some VNone /\
    field h' doc "verified" = Some (VBool false) /\
    field h' doc "topics_supported" = Some (VRef topics) /\
    field h' doc "audience_type" = Some (VRef audience) /\
    field h' doc "event_types" = Some (VRef events) /\
    field h' doc "embedding" = Some (VRef embedding) /\
    NoDup [topics; audience; events; embedding] /\
    Forall (fun a =>
              deref (Samples.loaded_heap
                       (Samples.payload (JStr "https://a.org") (JStr "free") JNull))
                a = None /\ deref h' a = Some (OList []))
      [topics; audience; events; embedding].
Proof.
  exact (pipeline_fields Samples.date Samples.stamp
           (Samples.loaded_heap
              (Samples.payload (JStr "https://a.org") (JStr "free") JNull))
           4%nat
           (Samples.entries_of
              (Samples.loaded_heap
                 (Samples.payload (JStr "https://a.org") (JStr "free") JNull))
              (VRef 4%nat))
           "http://a" (Some "free") eq_refl eq_refl eq_refl).
Defined.

Lemma deref_heap_store h a o o' :
  deref h a = Some o -> deref (heap_store h a o') a = Some o'.
Proof.
  unfold deref, heap_store. revert a.
  induction h as [|x l IH]; intros [|a]; cbn; try discriminate.
  - reflexivity.
  - apply IH.
Qed.

(** X14. The document shares the payload's containers: when the payload
    holds a list of tags, the document's tags are that very object, not a
    copy, so that a later change of the list in place is seen through the
    payload and through the document alike. The same holds for the social
    links and the community info. *)
Theorem document_shares_containers date ts h p es url (pm : option string)
    (k : string) (a : addr) :
  closed h = true ->
  deref h p = Some (ODict es) ->
  get_or es "pricing_model" VNone = opt_str pm ->
  In k ["tags"; "social_links"; "community_info"] ->
  dict_get k es = Some (VRef a) ->
  exists doc h',
    transform_community_data date ts (VRef p) url h = (Ok doc, h') /\
    field h' doc k = Some (VRef a) /\
    field h' (VRef p) k = Some (VRef a) /\
    deref h' a = deref h a /\
    (forall o, deref (heap_store h' a o) a = Some o).
Proof.
  intros Hc Hp Hpm Hk Ha.
  destruct (transform_document date ts h p es url pm Hc Hp Hpm)
    as (doc & h' & lang & pmv & fa & Heq & _ & Hf & Hkeep).
  assert (Hv : valid h (VRef a) = true).
  { replace (VRef a) with (get_or es k VNone)
      by (unfold get_or; now rewrite Ha).
    now apply closed_get with (p := p). }
  destruct (valid_deref _ _ Hv) as [o Ho].
  assert (Ho' : deref h' a = Some o).
  { apply Hkeep. now apply deref_app. }
  exists doc, h'. split; [exact Heq|].
  split; [|split; [|split]].
  - rewrite Hf. unfold get_or in *.
    cbn [In] in Hk. destruct Hk as [<-|[<-|[<-|[]]]];
      cbn [document dict_get String.eqb Ascii.eqb Bool.eqb];
      unfold get_or; now rewrite Ha.
  - unfold field. erewrite Hkeep by (apply deref_app; exact Hp). exact Ha.
  - now rewrite Ho, Ho'.
  - intros o'. now apply deref_heap_store with (o := o).
Qed.

(** The tags of the sample payload are the list at address 0. *)
Lemma document_shares_containers_witness :
  exists doc h',
    transform_community_data Samples.date Samples.stamp (VRef 4%nat) "http://a"
      (Samples.loaded_heap
         (Samples.payload (JStr "https://a.org") (JStr "free") JNull))
    = (Ok doc, h') /\
    field h' doc "tags" = Some (VRef 0%nat) /\
    field h' (VRef 4%nat) "tags" = Some (VRef 0%nat) /\
    deref h' 0%nat
    = deref (Samples.loaded_heap
               (Samples.payload (JStr "https://a.org") (JStr "free") JNull))
        0%nat /\
    (forall o, deref (heap_store h' 0%nat o) 0%nat = Some o).
Proof.
  exact (document_shares_containers Samples.date Samples.stamp
           (Samples.loaded_heap
              (Samples.payload (JStr "https://a.org") (JStr "free") JNull))
           4%nat
           (Samples.entries_of
              (Samples.loaded_heap
                 (Samples.payload (JStr "https://a.org") (JStr "free") JNull))
              (VRef 4%nat))
           "http://a" (Some "free") "tags" 0%nat
           eq_refl eq_refl eq_refl (or_introl eq_refl) eq_refl).
Defined.

(** X15. A pricing model that is true in Python's sense and is not a string
    (a number other than zero, [True], a non-empty list or mapping) makes the
    transform raise [AttributeError], on the call of [upper]; nothing has
    been allocated at that point. *)
Theorem pricing_model_must_be_text date ts h p es url :
  closed h = true ->
  deref h p = Some (ODict es) ->
  fst (truthy (get_or es "pricing_model" VNone) h) = Ok true ->
  (forall s, get_or es "pricing_model" VNone <> VStr s) ->
  transform_community_data date ts (VRef p) url h = (Raise AttributeError, h).
Proof.
  intros Hc Hp Ht Hs.
  destruct (language_of_valid h (get_or es "language" VNone)) as [lang Hl].
  { now apply closed_get with (p := p). }
  rewrite (transform_eq date ts h p es url Hp), Hl. cbn [fst].
  assert (Hpm : pricing_model_of (get_or es "pricing_model" VNone) h
                = (Raise AttributeError, h)).
  { unfold pricing_model_of, bind.
    rewrite (readonly_run _ h (readonly_truthy _)), Ht.
    destruct (get_or es "pricing_model" VNone); try reflexivity.
    now destruct (Hs s). }
  now rewrite Hpm.
Qed.

(** The sample payload with the number 5 as pricing model. *)
Lemma pricing_model_must_be_text_witness :
  transform_community_data Samples.date Samples.stamp (VRef 4%nat) "http://a"
    (Samples.loaded_heap (Samples.payload (JStr "https://a.org") (JInt 5) JNull))
  = (Raise AttributeError,
     Samples.loaded_heap (Samples.payload (JStr "https://a.org") (JInt 5) JNull)).
Proof.
  apply (pricing_model_must_be_text Samples.date Samples.stamp
           (Samples.loaded_heap
              (Samples.payload (JStr "https://a.org") (JInt 5) JNull))
           4%nat
           (Samples.entries_of
              (Samples.loaded_heap
                 (Samples.payload (JStr "https://a.org") (JInt 5) JNull))
              (VRef 4%nat))
           "http://a").
  - reflexivity.
  - reflexivity.
  - reflexivity.
  - intros s. discriminate.
Defined.

(** X16. Whatever the payload holds, a document has the 24 keys of the
    dict literal, each once and in its order: a key of the payload that is not
    among them, [short_description] for one, is not copied. *)
Theorem document_has_fixed_keys date ts h p es url (pm : option string) :
  closed h = true ->
  deref h p = Some (ODict es) ->
  get_or es "pricing_model" VNone = opt_str pm ->
  exists a h' entries,
    transform_community_data date ts (VRef p) url h = (Ok (VRef a), h') /\
    deref h' a = Some (ODict entries) /\
    map fst entries = document_keys /\
    NoDup document_keys /\
    field h' (VRef a) "short_description" = None.
Proof.
  intros Hc Hp Hpm.
  destruct (transform_ok date ts h p es url _ Hc Hp
              ltac:(rewrite Hpm, pricing_model_of_opt; reflexivity))
    as (lang & fa & _ & _ & Heq).
  assert (Hd : forall o,
             deref (h ++ [OList []; ODict []; ODict [];
                          OList []; OList []; OList []; OList []] ++ [o])
               (List.length h + 7)%nat = Some o).
  { intros o. unfold deref. rewrite nth_error_app2 by lia.
    now replace (List.length h + 7 - List.length h)%nat with 7%nat by lia. }
  eexists _, _, _. split; [exact Heq|]. split; [apply Hd|].
  split; [reflexivity|]. split.
  - unfold document_keys.
    repeat (constructor; [cbn [In]; intuition discriminate|]). constructor.
  - unfold field. rewrite Hd. reflexivity.
Qed.

(** The keys of the document of the sample payload. *)
Lemma document_has_fixed_keys_witness :
  exists a h' entries,
    transform_community_data Samples.date Samples.stamp (VRef 4%nat) "http://a"
      (Samples.loaded_heap
         (Samples.payload (JStr "https://a.org") (JStr "free") JNull))
    = (Ok (VRef a), h') /\
    deref h' a = Some (ODict entries) /\
    map fst entries = document_keys /\
    NoDup document_keys /\
    field h' (VRef a) "short_description" = None.
Proof.
  exact (document_has_fixed_keys Samples.date Samples.stamp
           (Samples.loaded_heap
              (Samples.payload (JStr "https://a.org") (JStr "free") JNull))
           4%nat
           (Samples.entries_of
              (Samples.loaded_heap
                 (Samples.payload (JStr "https://a.org") (JStr "free") JNull))
              (VRef 4%nat))
           "http://a" (Some "free") eq_refl eq_refl eq_refl).
Defined.

(* ================================================================= *)
(** ** The objects of a JSON document *)

Module BuildFacts.

Import BuildNotions.

(** Induction on JSON documents, through their arrays and objects. *)
Lemma json_induction (P : json -> Prop) :
  P JNull ->
  (forall b, P (JBool b)) ->
  (forall z, P (JInt z)) ->
  (forall f, P (JFloat f)) ->
  (forall s, P (JStr s)) ->
  (forall items, Forall P items -> P (JArr items)) ->
  (forall members, Forall (fun m => P (snd m)) members -> P (JObj members)) ->
  forall j, P j.
Proof.
  intros HN HB HI HF HS HA HO.
  fix IH 1. intros [ | b | z | f | s | items | members ].
  - exact HN.
  - apply HB.
  - apply HI.
  - apply HF.
  - apply HS.
  - apply HA.
    exact ((fix go (l : list json) : Forall P l :=
              match l with
              | [] => Forall_nil P
              | x :: r => Forall_cons x (IH x) (go r)
              end) items).
  - apply HO.
    exact ((fix go (l : list (string * json))
              : Forall (fun m => P (snd m)) l :=
              match l with
              | [] => Forall_nil _
              | m :: r => Forall_cons m (IH (snd m)) (go r)
              end) members).
Qed.

Lemma valid_entries_app h fresh es :
  valid_entries h es -> valid_entries (h ++ fresh) es.
Proof.
  unfold valid_entries. intros H. eapply Forall_impl; [|exact H].
  intros e. apply TransformerFacts.valid_app.
Qed.

Lemma valid_entries_set h k v es :
  valid h v = true -> valid_entries h es -> valid_entries h (dict_set k v es).
Proof.
  intros Hv. induction 1 as [|[k' v'] l Hx Hl IH]; cbn [dict_set].
  - repeat constructor. exact Hv.
  - destruct (String.eqb k k'); constructor; auto.
Qed.

Lemma dict_get_set k v es k' :
  dict_get k' (dict_set k v es)
  = if String.eqb k' k then Some v else dict_get k' es.
Proof.
  induction es as [|[k0 v0] l IH]; cbn [dict_set dict_get].
  - reflexivity.
  - destruct (String.eqb k k0) eqn:E; cbn [dict_get].
    + apply String.eqb_eq in E. subst k0.
      destruct (String.eqb k' k); reflexivity.
    + destruct (String.eqb k' k0) eqn:E'.
      * apply String.eqb_eq in E'. subst k0.
        rewrite String.eqb_sym in E. now rewrite E.
      * exact IH.
Qed.

Lemma valid_entries_get h es k d :
  valid_entries h es -> valid h d = true -> valid h (get_or es k d) = true.
Proof.
  intros Hes Hd. unfold get_or.
  destruct (dict_get k es) as [v|] eqn:G; [|exact Hd].
  destruct (TransformerFacts.dict_get_In _ _ _ G) as [k' Hin].
  unfold valid_entries in Hes. rewrite Forall_forall in Hes.
  exact (Hes _ Hin).
Qed.

Lemma build_items_ok items :
  Forall builds items ->
  forall h, exists vs fresh,
    (fix build_items (l : list json) : M (list value) :=
       match l with
       | [] => ret []
       | x :: r => v <- build x ;; vs <- build_items r ;; ret (v :: vs)
       end) items h = (Ok vs, h ++ fresh) /\
    Forall (fun v => valid (h ++ fresh) v = true) vs.
Proof.
  induction 1 as [|x r Hx _ IH]; intros h.
  - exists [], []. rewrite app_nil_r. split; [reflexivity | constructor].
  - destruct (Hx h) as (v & f1 & Hb & Hv).
    destruct (IH (h ++ f1)) as (vs & f2 & Hr & Hvs).
    exists (v :: vs), (f1 ++ f2). unfold bind at 1. rewrite Hb.
    unfold bind at 1. rewrite Hr. unfold ret. rewrite app_assoc.
    split; [reflexivity|]. constructor; [|exact Hvs].
    now apply TransformerFacts.valid_app.
Qed.

Lemma build_members_ok members :
  Forall (fun m => builds (snd m)) members ->
  forall acc h,
    valid_entries h acc ->
    exists es fresh,
      (fix build_members (l : list (string * json))
           (acc : list (string * value)) : M (list (string * value)) :=
         match l with
         | [] => ret acc
         | (k, x) :: r => v <- build x ;; build_members r (dict_set k v acc)
         end) members acc h = (Ok es, h ++ fresh) /\
      valid_entries (h ++ fresh) es /\
      ((forall x, In ("pricing_model", x) members -> textual_json x) ->
       textual (get_or acc "pricing_model" VNone) ->
       textual (get_or es "pricing_model" VNone)).
Proof.
  induction 1 as [|[k x] r Hx _ IH]; intros acc h Hacc.
  - exists acc, []. rewrite app_nil_r. auto.
  - cbn [snd] in Hx. destruct (Hx h) as (v & f1 & Hb & Hv).
    destruct (IH (dict_set k v acc) (h ++ f1)) as (es & f2 & Hr & Hes & Ht).
    { apply valid_entries_set; [exact Hv|]. now apply valid_entries_app. }
    exists es, (f1 ++ f2). unfold bind at 1. rewrite Hb, Hr, app_assoc.
    split; [reflexivity|]. split; [exact Hes|].
    intros Hpm Htext. apply Ht; [intros y Hin; apply Hpm; now right|].
    unfold get_or. rewrite dict_get_set.
    destruct (String.eqb "pricing_model" k) eqn:E; [|exact Htext].
    apply String.eqb_eq in E. subst k.
    destruct (Hpm x (or_introl eq_refl)) as [->|[s ->]]; cbn in Hb.
    + injection Hb as <- _. now exists None.
    + injection Hb as <- _. now exists (Some s).
Qed.

Lemma builds_all j : builds j.
Proof.
  induction j using json_induction; intros h;
    try (eexists _, []; rewrite app_nil_r; split; reflexivity).
  - destruct (build_items_ok items H h) as (vs & fresh & Hb & _).
    exists (VRef (List.length (h ++ fresh))), (fresh ++ [OList vs]).
    cbn [build]. unfold bind at 1. rewrite Hb. unfold alloc. rewrite app_assoc.
    split; [reflexivity|]. cbn. apply Nat.ltb_lt. rewrite !length_app. cbn. lia.
  - destruct (build_members_ok members H [] h) as (es & fresh & Hb & _);
      [constructor|].
    exists (VRef (List.length (h ++ fresh))), (fresh ++ [ODict es]).
    cbn [build]. unfold bind at 1. rewrite Hb. unfold alloc. rewrite app_assoc.
    split; [reflexivity|]. cbn. apply Nat.ltb_lt. rewrite !length_app. cbn. lia.
Qed.

(** The dict of a JSON object whose pricing model, if it has one, is null or
    a string. *)
Lemma build_object members h :
  (forall x, In ("pricing_model", x) members -> textual_json x) ->
  exists es fresh pm,
    build (JObj members) h
    = (Ok (VRef (List.length (h ++ fresh))), (h ++ fresh) ++ [ODict es]) /\
    valid_entries (h ++ fresh) es /\
    get_or es "pricing_model" VNone = opt_str pm.
Proof.
  intros Hpm.
  assert (Hall : Forall (fun m => builds (snd m)) members).
  { apply Forall_forall. intros m _. apply builds_all. }
  destruct (build_members_ok members Hall [] h) as (es & fresh & Hb & Hes & Ht);
    [constructor|].
  destruct (Ht Hpm) as [pm Hg]; [now exists None|].
  exists es, fresh, pm.
  cbn [build]. unfold bind at 1. rewrite Hb. unfold alloc. auto.
Qed.

(** The transform of such a dict returns a document. *)
Lemma transform_built_object date ts url h es pm :
  valid_entries h es ->
  get_or es "pricing_model" VNone = opt_str pm ->
  exists doc h',
    Transformer.transform_community_data date ts (VRef (List.length h)) url
      (h ++ [ODict es]) = (Ok doc, h').
Proof.
  intros Hes Hpm.
  assert (Hp : deref (h ++ [ODict es]) (List.length h) = Some (ODict es)).
  { unfold deref. rewrite nth_error_app2 by lia. now rewrite Nat.sub_diag. }
  rewrite (TransformerFacts.transform_eq date ts _ _ _ url Hp).
  destruct (TransformerFacts.language_of_valid (h ++ [ODict es])
              (get_or es "language" VNone)) as [lang Hl].
  { apply TransformerFacts.valid_app. now apply valid_entries_get. }
  destruct (TransformerFacts.py_or_valid ((h ++ [ODict es]) ++ [OList []])
              (get_or es "focus_areas" VNone) (VStr "")) as [fa Hfa].
  { do 2 apply TransformerFacts.valid_app. now apply valid_entries_get. }
  rewrite Hl, Hpm, TransformerFacts.pricing_model_of_opt, Hfa. cbn. eauto.
Qed.

End BuildFacts.

(* ================================================================= *)
(** ** More on the batch loader *)

Import Destination.

Lemma transform_not_dict date ts v url h :
  (forall a es, v = VRef a -> deref h a <> Some (ODict es)) ->
  exists e, fst (transform_community_data date ts v url h) = Raise e.
Proof.
  intros Hv. unfold transform_community_data. unfold bind at 1.
  destruct v; try (eexists; reflexivity).
  unfold py_get, bind, load.
  destruct (deref h a) as [[items|es]|] eqn:E; try (eexists; reflexivity).
  now destruct (Hv a es eq_refl).
Qed.

Lemma build_not_object j h :
  (forall members, j <> JObj members) ->
  match build j h with
  | (Ok v, h') => forall a es, v = VRef a -> deref h' a <> Some (ODict es)
  | (Raise _, _) => True
  end.
Proof.
  intros Hj. destruct j; cbn [build]; try (cbn; intros; discriminate).
  - unfold bind.
    match goal with |- context [match ?m h with _ => _ end] =>
      destruct (m h) as [[vs|e] h1] end; [|exact I].
    cbn. intros a es [= <-]. unfold deref.
    rewrite nth_error_app2 by lia. rewrite Nat.sub_diag. discriminate.
  - now destruct (Hj members).
Qed.

Lemma parse_and_transform_fails parse today idx u text h :
  (forall members, parse text <> Some (JObj members)) ->
  exists e, fst (parse_and_transform parse today idx u text h) = Raise e.
Proof.
  intros Hp. unfold parse_and_transform.
  destruct (parse text) as [j|]; [|eexists; reflexivity].
  unfold bind. pose proof (build_not_object j h) as Hb.
  destruct (build j h) as [[v|e] h1]; [|eexists; reflexivity].
  apply transform_not_dict. apply Hb. intros members ->. now apply (Hp members).
Qed.

Import BuildNotions BuildFacts.

Section MoreLoad.

Variable parse : string -> option json.
Variable C : Type.
Variable insert_many :
  list value -> C -> heap -> result (list value) * C * heap.
Variable today : nat -> string * string.
Variable batch_size : Z.

Lemma row_fails idx u text (st : load_state C) :
  (forall members, parse text <> Some (JObj members)) ->
  failed C (load_row parse C insert_many today batch_size idx (u, text) st)
  = failed C st + 1 /\
  processed C (load_row parse C insert_many today batch_size idx (u, text) st)
  = processed C st /\
  documents C (load_row parse C insert_many today batch_size idx (u, text) st)
  = documents C st /\
  collection C (load_row parse C insert_many today batch_size idx (u, text) st)
  = collection C st.
Proof.
  intros Hp. unfold load_row.
  destruct (parse_and_transform_fails parse today idx u text (objects C st) Hp)
    as [e He].
  destruct (parse_and_transform parse today idx u text (objects C st))
    as [[doc|e'] h1]; [discriminate|].
  repeat split.
Qed.

Lemma load_rows_without_objects rs : forall idx st,
  (forall r members, In r rs -> parse (snd r) <> Some (JObj members)) ->
  failed C (load_rows parse C insert_many today batch_size idx rs st)
  = failed C st + len rs /\
  processed C (load_rows parse C insert_many today batch_size idx rs st)
  = processed C st /\
  documents C (load_rows parse C insert_many today batch_size idx rs st)
  = documents C st /\
  collection C (load_rows parse C insert_many today batch_size idx rs st)
  = collection C st.
Proof.
  unfold len.
  induction rs as [|[u text] rest IH]; intros idx st Hall; cbn [load_rows].
  - cbn. repeat split. lia.
  - destruct (IH (S idx)
                (load_row parse C insert_many today batch_size idx (u, text) st))
      as (F & P & D & K).
    { intros r members Hin. apply Hall. now right. }
    destruct (row_fails idx u text st) as (F1 & P1 & D1 & K1).
    { intros members. apply (Hall (u, text)). now left. }
    rewrite F, P, D, K, F1, P1, D1, K1. cbn [List.length].
    repeat split. lia.
Qed.

Lemma load_row_accepted idx r (st : load_state C) :
  accepts_all insert_many ->
  processed C (load_row parse C insert_many today batch_size idx r st)
  + failed C (load_row parse C insert_many today batch_size idx r st)
  + len (documents C (load_row parse C insert_many today batch_size idx r st))
  = processed C st + failed C st + len (documents C st) + 1 /\
  (failed C (load_row parse C insert_many today batch_size idx r st)
   = failed C st \/
   exists e, fst (parse_and_transform parse today idx (fst r) (snd r)
                    (objects C st)) = Raise e).
Proof.
  intros Hacc. unfold load_row, len. destruct r as [u text]. cbn [fst snd].
  destruct (parse_and_transform parse today idx u text (objects C st))
    as [[doc|e] h1].
  2:{ cbn. split; [lia | right; now exists e]. }
  match goal with |- context [if ?b then _ else _] => destruct b end.
  - destruct (Hacc (documents C st ++ [doc]) (collection C st) h1)
      as (ids & c' & h' & Hins & Hlen).
    unfold len in *. rewrite Hins. cbn. rewrite Hlen, length_app. cbn.
    split; [lia | now left].
  - cbn. rewrite length_app. cbn. split; [lia | now left].
Qed.

Lemma load_rows_accepted rs : forall idx (st : load_state C),
  accepts_all insert_many ->
  processed C (load_rows parse C insert_many today batch_size idx rs st)
  + failed C (load_rows parse C insert_many today batch_size idx rs st)
  + len (documents C (load_rows parse C insert_many today batch_size idx rs st))
  = processed C st + failed C st + len (documents C st) + len rs.
Proof.
  intros idx st Hacc. revert idx st.
  induction rs as [|r rest IH]; intros idx st; cbn [load_rows].
  - unfold len. cbn. lia.
  - rewrite IH. destruct (load_row_accepted idx r st Hacc) as [H _].
    rewrite H. unfold len. cbn [List.length]. lia.
Qed.

Lemma load_rows_all_transform rs : forall idx (st : load_state C),
  accepts_all insert_many ->
  (forall i r h, In r rs ->
     exists doc h',
       parse_and_transform parse today i (fst r) (snd r) h = (Ok doc, h')) ->
  failed C (load_rows parse C insert_many today batch_size idx rs st)
  = failed C st.
Proof.
  intros idx st Hacc. revert idx st.
  induction rs as [|r rest IH]; intros idx st Hall; cbn [load_rows]; [reflexivity|].
  rewrite IH by (intros i r' h Hin; apply Hall; now right).
  destruct (load_row_accepted idx r st Hacc) as [_ [H|[e He]]]; [exact H|].
  destruct (Hall idx r (objects C st) (or_introl eq_refl)) as (doc & h' & Hok).
  rewrite Hok in He. discriminate.
Qed.

Lemma load_remaining_accepted (st : load_state C) :
  accepts_all insert_many ->
  exists st',
    load_remaining C insert_many st = Ok st' /\
    processed C st' = processed C st + len (documents C st) /\
    failed C st' = failed C st.
Proof.
  intros Hacc. unfold load_remaining.
  destruct (documents C st) as [|d ds] eqn:D.
  - exists st. unfold len. cbn. repeat split. lia.
  - destruct (Hacc (d :: ds) (collection C st) (objects C st))
      as (ids & c' & h' & Hins & Hlen).
    rewrite Hins. eexists. split; [reflexivity|]. unfold len. cbn.
    rewrite Hlen. cbn. split; [lia | reflexivity].
Qed.

End MoreLoad.

(** X17. A row that does not hold a JSON object, because its text is not
    JSON or is the JSON of null, a number, a string or an array, is counted
    as failed: no document is added to the batch and nothing is sent. *)
Theorem row_without_object_fails
    (parse : string -> option json) (C : Type)
    (insert_many : list value -> C -> heap -> result (list value) * C * heap)
    (today : nat -> string * string) (batch_size : Z)
    (idx : nat) (u text : string) (st : load_state C) :
  (forall members, parse text <> Some (JObj members)) ->
  failed C (load_row parse C insert_many today batch_size idx (u, text) st)
  = failed C st + 1 /\
  processed C (load_row parse C insert_many today batch_size idx (u, text) st)
  = processed C st /\
  documents C (load_row parse C insert_many today batch_size idx (u, text) st)
  = documents C st /\
  collection C (load_row parse C insert_many today batch_size idx (u, text) st)
  = collection C st.
Proof. apply row_fails. Qed.

(** A row that holds the JSON of an empty array. *)
Lemma row_without_object_fails_witness :
  failed unit
    (load_row parse_more unit accepting Samples.today 1 1
       ("http://site1", "[]")
       {| objects := []; collection := tt; documents := [];
          processed := 0; failed := 0 |})
  = 0 + 1 /\
  processed unit
    (load_row parse_more unit accepting Samples.today 1 1
       ("http://site1", "[]")
       {| objects := []; collection := tt; documents := [];
          processed := 0; failed := 0 |})
  = 0 /\
  documents unit
    (load_row parse_more unit accepting Samples.today 1 1
       ("http://site1", "[]")
       {| objects := []; collection := tt; documents := [];
          processed := 0; failed := 0 |})
  = [] /\
  collection unit
    (load_row parse_more unit accepting Samples.today 1 1
       ("http://site1", "[]")
       {| objects := []; collection := tt; documents := [];
          processed := 0; failed := 0 |})
  = tt.
Proof.
  apply (row_without_object_fails parse_more unit accepting Samples.today 1
           1 "http://site1" "[]"
           {| objects := []; collection := tt; documents := [];
              processed := 0; failed := 0 |}).
  intros members. discriminate.
Defined.

Lemma select_rows_length t : len (select_rows t) = len (rows t).
Proof. unfold len, select_rows. now rewrite length_map. Qed.

Lemma store_not_empty t : rows t <> [] -> (len (select_rows t) =? 0) = false.
Proof.
  intros H. rewrite select_rows_length. unfold len.
  destruct (rows t); [congruence|]. reflexivity.
Qed.

(** X18. When the destination inserts every document it is sent, the summary
    of a store that is not empty accounts for every record: loaded + failed
    is the total, the number of rows of the store. *)
Theorem summary_accounts_for_every_record
    (parse : string -> option json) (C : Type)
    (insert_many : list value -> C -> heap -> result (list value) * C * heap)
    (today : nat -> string * string) (batch_size : Z)
    (t : table) (c : C) :
  accepts_all insert_many ->
  rows t <> [] ->
  exists s c',
    load_sqlite_to_mongodb parse C insert_many today batch_size t c
    = Ok (Some s, c') /\
    total_communities s = len (rows t) /\
    loaded s + not_loaded s = total_communities s.
Proof.
  intros Hacc Hne. unfold load_sqlite_to_mongodb.
  rewrite (store_not_empty t Hne).
  match goal with |- context [load_remaining _ _ ?s] => set (st := s) end.
  destruct (load_remaining_accepted C insert_many st Hacc)
    as (st' & Hrem & Hp & Hf).
  rewrite Hrem. eexists _, _. split; [reflexivity|].
  cbn [total_communities loaded not_loaded].
  split; [apply select_rows_length|].
  rewrite Hp, Hf. unfold st.
  pose proof (load_rows_accepted parse C insert_many today batch_size
                (select_rows t) 1
                {| objects := []; collection := c; documents := [];
                   processed := 0; failed := 0 |} Hacc) as H.
  unfold len in *. cbn in H. lia.
Qed.

(** The sample store of three records and a destination that accepts all. *)
Lemma summary_accounts_witness :
  exists s c',
    load_sqlite_to_mongodb Samples.parse unit accepting Samples.today 2
      (Samples.store 3) tt
    = Ok (Some s, c') /\
    total_communities s = len (rows (Samples.store 3)) /\
    loaded s + not_loaded s = total_communities s.
Proof.
  apply (summary_accounts_for_every_record Samples.parse unit accepting
           Samples.today 2 (Samples.store 3) tt).
  - intros docs c h. exists (Samples.ids docs), c, h.
    split; [reflexivity|]. unfold Samples.ids.
    rewrite length_map. apply length_seq.
  - discriminate.
Defined.

Lemma parse_and_transform_object parse today i u text h members :
  parse text = Some (JObj members) ->
  (forall x, In ("pricing_model", x) members -> textual_json x) ->
  exists doc h', parse_and_transform parse today i u text h = (Ok doc, h').
Proof.
  intros Hp Hpm. unfold parse_and_transform. rewrite Hp. unfold bind.
  destruct (build_object members h Hpm) as (es & fresh & pm & Hb & Hes & Hg).
  rewrite Hb. now apply transform_built_object with (pm := pm).
Qed.

(** X19. When the destination inserts every document it is sent and every
    row of the store holds a JSON object whose pricing model, if it has one,
    is null or a string, every record is loaded and none is counted as
    failed, whatever the other fields hold and whatever the batch size. *)
Theorem every_record_is_loaded
    (parse : string -> option json) (C : Type)
    (insert_many : list value -> C -> heap -> result (list value) * C * heap)
    (today : nat -> string * string) (batch_size : Z)
    (t : table) (c : C) :
  accepts_all insert_many ->
  rows t <> [] ->
  (forall r, In r (rows t) ->
     exists members,
       parse (enriched_data r) = Some (JObj members) /\
       forall x, In ("pricing_model", x) members ->
                 x = JNull \/ exists s, x = JStr s) ->
  exists c',
    load_sqlite_to_mongodb parse C insert_many today batch_size t c
    = Ok (Some {| total_communities := len (rows t);
                  loaded := len (rows t);
                  not_loaded := 0 |}, c').
Proof.
  intros Hacc Hne Hall. unfold load_sqlite_to_mongodb.
  rewrite (store_not_empty t Hne).
  match goal with |- context [load_remaining _ _ ?s] => set (st := s) end.
  destruct (load_remaining_accepted C insert_many st Hacc)
    as (st' & Hrem & Hp & Hf).
  rewrite Hrem. eexists. do 2 f_equal. f_equal.
  pose proof (load_rows_accepted parse C insert_many today batch_size
                (select_rows t) 1
                {| objects := []; collection := c; documents := [];
                   processed := 0; failed := 0 |} Hacc) as H.
  assert (Hz : failed C st = 0).
  { unfold st. rewrite load_rows_all_transform; [reflexivity | exact Hacc |].
    intros i r h Hin. unfold select_rows in Hin. apply in_map_iff in Hin.
    destruct Hin as (r0 & <- & Hin). cbn [fst snd].
    destruct (Hall r0 Hin) as (members & Hparse & Hpm).
    now apply parse_and_transform_object with (members := members). }
  fold st in H. cbn [processed failed documents] in H.
  rewrite select_rows_length in *.
  f_equal; [| rewrite Hf; exact Hz].
  rewrite Hp. unfold len in *. cbn [List.length] in H. lia.
Qed.

(** The sample store of three records, each the text of an empty object. *)
Lemma every_record_is_loaded_witness :
  exists c',
    load_sqlite_to_mongodb Samples.parse unit accepting Samples.today 2
      (Samples.store 3) tt
    = Ok (Some {| total_communities := len (rows (Samples.store 3));
                  loaded := len (rows (Samples.store 3));
                  not_loaded := 0 |}, c').
Proof.
  apply (every_record_is_loaded Samples.parse unit accepting Samples.today 2
           (Samples.store 3) tt).
  - intros docs c h. exists (Samples.ids docs), c, h.
    split; [reflexivity|]. unfold Samples.ids.
    rewrite length_map. apply length_seq.
  - discriminate.
  - intros r Hin. exists [].
    split; [|intros x []].
    cbn in Hin. destruct Hin as [<-|[<-|[<-|[]]]]; reflexivity.
Defined.

(** X20. When no row of a store holds a JSON object, every record is counted
    as failed, none as loaded, and the destination is never called: its state
    is the one it had. *)
Theorem store_without_objects_loads_nothing
    (parse : string -> option json) (C : Type)
    (insert_many : list value -> C -> heap -> result (list value) * C * heap)
    (today : nat -> string * string) (batch_size : Z)
    (t : table) (c : C) :
  rows t <> [] ->
  (forall r members,
      In r (rows t) -> parse (enriched_data r) <> Some (JObj members)) ->
  load_sqlite_to_mongodb parse C insert_many today batch_size t c
  = Ok (Some {| total_communities := len (rows t);
                loaded := 0;
                not_loaded := len (rows t) |}, c).
Proof.
  intros Hne Hall. unfold load_sqlite_to_mongodb.
  rewrite (store_not_empty t Hne).
  match goal with |- context [load_remaining _ _ ?s] => set (st := s) end.
  destruct (load_rows_without_objects parse C insert_many today batch_size
              (select_rows t) 1
              {| objects := []; collection := c; documents := [];
                 processed := 0; failed := 0 |})
    as (F & P & D & K).
  { intros r members Hin. unfold select_rows in Hin. apply in_map_iff in Hin.
    destruct Hin as (r0 & <- & Hin). cbn [snd]. now apply Hall. }
  fold st in F, P, D, K. cbn [failed processed documents collection] in F, P, D, K.
  unfold load_remaining. rewrite D.
  rewrite P, F, K, select_rows_length. reflexivity.
Qed.

(** A store whose three rows hold an array, null, and text that is not JSON,
    loaded into a destination that would reject part of any batch. *)
Lemma store_without_objects_witness :
  load_sqlite_to_mongodb parse_more Samples.batches Samples.rejects_third
    Samples.today 2 broken_store []
  = Ok (Some {| total_communities := len (rows broken_store);
                loaded := 0;
                not_loaded := len (rows broken_store) |}, []).
Proof.
  apply (store_without_objects_loads_nothing parse_more Samples.batches
           Samples.rejects_third Samples.today 2 broken_store []).
  - discriminate.
  - intros r members Hin. cbn in Hin.
    destruct Hin as [<-|[<-|[<-|[]]]]; discriminate.
Defined.

Section Batches.

Variable parse : string -> option json.
Variable C : Type.
Variable insert_many :
  list value -> C -> heap -> result (list value) * C * heap.
Variable today : nat -> string * string.
Variable batch_size : Z.

Hypothesis only_bulk : raises_only_bulk insert_many.

Lemma recording_outcome docs (cl : (C * list (list value))) h :
  exists r c' h',
    recording insert_many docs cl h = (r, (c', snd cl ++ [docs]), h') /\
    match r with
    | Ok _ | Raise (BulkWriteError _) => True
    | Raise _ => False
    end.
Proof.
  unfold recording. pose proof (only_bulk docs (fst cl) h) as H.
  destruct (insert_many docs (fst cl) h) as [[r c'] h'].
  exists r, c', h'. split; [reflexivity | exact H].
Qed.

Lemma load_row_full_batches idx r (st : load_state (C * list (list value))) :
  full_batches batch_size st ->
  full_batches batch_size
    (load_row parse _ (recording insert_many) today batch_size idx r st).
Proof.
  unfold full_batches. intros [Hlog Hdocs]. unfold load_row.
  destruct r as [u text].
  destruct (parse_and_transform parse today idx u text (objects _ st))
    as [[doc|e] h1]; [|cbn; auto].
  assert (Hlen : len (documents _ st ++ [doc]) = len (documents _ st) + 1).
  { unfold len. rewrite length_app. cbn. lia. }
  assert (Hpos : 0 <= len (documents _ st)) by (unfold len; lia).
  destruct (len (documents _ st ++ [doc]) >=? batch_size) eqn:E.
  - destruct (recording_outcome (documents _ st ++ [doc]) (collection _ st) h1)
      as (r & c' & h' & Hrec & Hr).
    rewrite Hrec.
    assert (Hnew : Forall (fun b => len b = Z.max 1 batch_size)
                     (snd (collection _ st) ++ [documents _ st ++ [doc]])).
    { apply Forall_app. split; [exact Hlog|]. repeat constructor.
      apply Z.geb_le in E. lia. }
    destruct r as [ids|[]]; try (now destruct Hr); cbn; split; auto;
      unfold len; cbn; lia.
  - cbn. split; [exact Hlog|].
    rewrite Z.geb_leb in E. apply Z.leb_gt in E. lia.
Qed.

Lemma load_rows_full_batches rs : forall idx (st : load_state (C * list (list value))),
  full_batches batch_size st ->
  full_batches batch_size
    (load_rows parse _ (recording insert_many) today batch_size idx rs st).
Proof.
  induction rs as [|r rest IH]; intros idx st H; cbn [load_rows]; [exact H|].
  apply IH. now apply load_row_full_batches.
Qed.

Lemma load_remaining_batches (st : load_state (C * list (list value))) :
  full_batches batch_size st ->
  exists st' rest,
    load_remaining _ (recording insert_many) st = Ok st' /\
    snd (collection _ st') = snd (collection _ st) ++ rest /\
    (rest = [] \/
     exists b, rest = [b] /\ 1 <= len b < Z.max 1 batch_size).
Proof.
  unfold full_batches. intros [Hlog Hdocs]. unfold load_remaining.
  destruct (documents _ st) as [|d ds] eqn:D.
  - exists st, []. rewrite app_nil_r. auto.
  - destruct (recording_outcome (d :: ds) (collection _ st) (objects _ st))
      as (r & c' & h' & Hrec & Hr).
    rewrite Hrec.
    assert (Hb : 1 <= len (d :: ds) < Z.max 1 batch_size).
    { split; [unfold len; cbn [List.length]; lia | exact Hdocs]. }
    destruct r as [ids|[]]; try (now destruct Hr);
      eexists _, [d :: ds]; (split; [reflexivity|]); cbn; split; eauto.
Qed.

End Batches.

(** X21. When the destination raises nothing but [BulkWriteError], the loader
    ends with a summary, and the batches it sent are these: batches of
    exactly [batch_size] documents (of one document when [batch_size] is
    below 1), followed by at most one last batch, which is not empty and is
    smaller. *)
Theorem batches_have_the_batch_size
    (parse : string -> option json) (C : Type)
    (insert_many : list value -> C -> heap -> result (list value) * C * heap)
    (today : nat -> string * string) (batch_size : Z)
    (t : table) (c : C) :
  raises_only_bulk insert_many ->
  rows t <> [] ->
  exists s c' full rest,
    load_sqlite_to_mongodb parse (C * list (list value))
      (recording insert_many) today batch_size t (c, [])
    = Ok (Some s, (c', full ++ rest)) /\
    Forall (fun b => len b = Z.max 1 batch_size) full /\
    (rest = [] \/ exists b, rest = [b] /\ 1 <= len b < Z.max 1 batch_size).
Proof.
  intros Hbulk Hne. unfold load_sqlite_to_mongodb.
  rewrite (store_not_empty t Hne).
  match goal with |- context [load_remaining _ _ ?s] => set (st := s) end.
  assert (Hinv : Forall (fun b => len b = Z.max 1 batch_size)
                   (snd (collection _ st)) /\
                 len (documents _ st) < Z.max 1 batch_size).
  { unfold st.
    apply (load_rows_full_batches parse C insert_many today batch_size Hbulk).
    cbn. split; [constructor | unfold len; cbn; lia]. }
  destruct (load_remaining_batches C insert_many batch_size Hbulk st Hinv)
    as (st' & rest & Hrem & Hlog & Hrest).
  rewrite Hrem.
  destruct (collection _ st') as [c' log] eqn:K. cbn [snd] in Hlog. subst log.
  eexists _, c', _, rest. split; [reflexivity|]. split; [apply Hinv | exact Hrest].
Qed.

(** The sample store of three records, loaded in batches of two. *)
Lemma batches_have_the_batch_size_witness :
  exists s c' full rest,
    load_sqlite_to_mongodb Samples.parse (unit * list (list value))
      (recording accepting) Samples.today 2 (Samples.store 3) (tt, [])
    = Ok (Some s, (c', full ++ rest)) /\
    Forall (fun b => len b = Z.max 1 2) full /\
    (rest = [] \/ exists b, rest = [b] /\ 1 <= len b < Z.max 1 2).
Proof.
  apply (batches_have_the_batch_size Samples.parse unit accepting Samples.today
           2 (Samples.store 3) tt).
  - intros docs c h. exact I.
  - discriminate.
Defined.

(* ================================================================= *)
(** ** The list of URLs *)

Module UrlListFacts.

Import UrlList.

Lemma str_in_comma_cons c r :
  PyStr.str_in "," (String c r) = (is_comma c || PyStr.str_in "," r)%bool.
Proof.
  assert (P : String.prefix "," (String c r) = is_comma c).
  { unfold is_comma. cbn [String.prefix].
    destruct (ascii_dec "," c) as [<-|Hne].
    - now destruct r.
    - symmetry. apply Ascii.eqb_neq. congruence. }
  cbn [PyStr.str_in]. rewrite P. now destruct (is_comma c).
Qed.

Lemma str_in_comma_empty : PyStr.str_in "," "" = false.
Proof. reflexivity. Qed.

Lemma no_comma_lstrip p s :
  PyStr.str_in "," s = false -> PyStr.str_in "," (lstrip_of p s) = false.
Proof.
  induction s as [|c r IH]; [auto|]. cbn [lstrip_of].
  destruct (p c); [|auto]. rewrite str_in_comma_cons.
  intros H. apply orb_false_iff in H. now apply IH.
Qed.

Lemma rstrip_cons p c r :
  rstrip_of p (String c r)
  = match rstrip_of p r with
    | EmptyString => if p c then EmptyString else String c EmptyString
    | String c' r' => String c (String c' r')
    end.
Proof. reflexivity. Qed.

Lemma no_comma_rstrip p s :
  PyStr.str_in "," s = false -> PyStr.str_in "," (rstrip_of p s) = false.
Proof.
  induction s as [|c r IH]; [auto|]. rewrite str_in_comma_cons, rstrip_cons.
  intros H. apply orb_false_iff in H. destruct H as [Hc Hr].
  specialize (IH Hr).
  destruct (rstrip_of p r) as [|c' r'].
  - destruct (p c); [reflexivity|]. rewrite str_in_comma_cons, Hc. reflexivity.
  - rewrite str_in_comma_cons, Hc. exact IH.
Qed.

Lemma no_comma_before s : PyStr.str_in "," (before_comma s) = false.
Proof.
  induction s as [|c r IH]; [reflexivity|]. cbn [before_comma].
  destruct (is_comma c) eqn:E; [reflexivity|].
  now rewrite str_in_comma_cons, E.
Qed.

Lemma lstrip_idem p s : lstrip_of p (lstrip_of p s) = lstrip_of p s.
Proof.
  induction s as [|c r IH]; [reflexivity|]. cbn [lstrip_of].
  destruct (p c) eqn:E; [exact IH|]. cbn [lstrip_of]. now rewrite E.
Qed.

(** Stripping the end of a string leaves its beginning alone. *)
Lemma lstrip_rstrip p q s :
  lstrip_of p s = s -> rstrip_of q s <> "" ->
  lstrip_of p (rstrip_of q s) = rstrip_of q s.
Proof.
  destruct s as [|c r]; [reflexivity|]. rewrite rstrip_cons. cbn [lstrip_of].
  destruct (p c) eqn:E.
  - intros H. exfalso.
    assert (L : forall x, (String.length (lstrip_of p x) <= String.length x)%nat).
    { induction x as [|a x IHx]; cbn; [lia|]. destruct (p a); cbn; lia. }
    specialize (L r). rewrite H in L. cbn in L. lia.
  - intros _. destruct (rstrip_of q r) as [|c' r'].
    + destruct (q c); [congruence|]. intros _. cbn. now rewrite E.
    + intros _. cbn. now rewrite E.
Qed.

Lemma clean_row_some row u :
  clean_row row = Some u ->
  u <> "" /\ PyStr.str_in "," u = false /\ lstrip_of is_space u = u.
Proof.
  unfold clean_row. destruct row as [|cell rest]; [discriminate|].
  destruct (String.eqb (strip cell) ""); [discriminate|].
  destruct (PyStr.str_in "," (rstrip_of is_comma (strip cell))) eqn:Hc.
  - destruct (String.eqb (strip (before_comma _)) "") eqn:E; [discriminate|].
    intros [= <-]. apply String.eqb_neq in E.
    split; [exact E|]. split.
    + unfold strip. apply no_comma_lstrip, no_comma_rstrip, no_comma_before.
    + unfold strip. apply lstrip_idem.
  - destruct (String.eqb (rstrip_of is_comma (strip cell)) "") eqn:E; [discriminate|].
    intros [= <-]. apply String.eqb_neq in E.
    split; [exact E|]. split; [exact Hc|].
    apply lstrip_rstrip; [|exact E]. unfold strip. apply lstrip_idem.
Qed.

Lemma rstrip_comma_none s :
  PyStr.str_in "," s = false -> rstrip_of is_comma s = s.
Proof.
  induction s as [|c r IH]; [reflexivity|].
  rewrite str_in_comma_cons, rstrip_cons. intros H.
  apply orb_false_iff in H. destruct H as [Hc Hr]. rewrite (IH Hr).
  destruct r; [now rewrite Hc | reflexivity].
Qed.

Lemma clean_row_clean u rest : clean u -> clean_row (u :: rest) = Some u.
Proof.
  intros (_ & Hne & Hc & Hs). unfold clean_row. rewrite Hs.
  apply String.eqb_neq in Hne. rewrite Hne.
  rewrite (rstrip_comma_none u Hc), Hc.
  now rewrite Hne.
Qed.

End UrlListFacts.

Import UrlList UrlListFacts.

(** X22. Every URL [read_urls_from_csv] returns is not empty, holds no
    comma, and does not begin with white space. *)
Theorem urls_read_are_trimmed (rows : list (list string)) (u : string) :
  In u (read_urls_from_csv rows) ->
  u <> "" /\ PyStr.str_in "," u = false /\ lstrip_of is_space u = u.
Proof.
  induction rows as [|row rest IH]; cbn [read_urls_from_csv]; [intros []|].
  destruct (clean_row row) as [v|] eqn:E; [|exact IH].
  intros [<-|Hin]; [now apply clean_row_some with (row := row) | now apply IH].
Qed.

(** A row with blanks around the URL and a note after a comma. *)
Lemma urls_read_witness :
  "https://a.org" <> "" /\
  PyStr.str_in "," "https://a.org" = false /\
  lstrip_of is_space "https://a.org" = "https://a.org".
Proof.
  apply (urls_read_are_trimmed
           [[]; ["  https://a.org , keep an eye - not free"; "x"]]
           "https://a.org").
  left. reflexivity.
Defined.

(** X23. Rows whose first cell is a URL in ASCII, without comma and without
    white space around it, give back these URLs, one for each row and in the
    order of the rows; the other cells of a row are not looked at. *)
Theorem clean_urls_are_read_back (rows : list (string * list string)) :
  Forall (fun r => clean (fst r)) rows ->
  read_urls_from_csv (map (fun r => fst r :: snd r) rows) = map fst rows.
Proof.
  induction 1 as [|[u rest] l Hu _ IH]; [reflexivity|].
  cbn [map read_urls_from_csv fst snd].
  now rewrite (clean_row_clean u rest Hu), IH.
Qed.

(** Two rows, the second with a second cell. *)
Lemma clean_urls_witness :
  read_urls_from_csv
    (map (fun r => fst r :: snd r)
       [("siteA.com", []); ("https://b.org/x", ["a note"])])
  = map fst [("siteA.com", []); ("https://b.org/x", ["a note"])].
Proof.
  apply (clean_urls_are_read_back
           [("siteA.com", []); ("https://b.org/x", ["a note"])]).
  repeat constructor; discriminate.
Defined.

Module NoteFacts.

Import UrlList UrlListFacts.

Lemma rstrip_app p a b :
  rstrip_of p (a ++ b)%string
  = match rstrip_of p b with
    | EmptyString => rstrip_of p a
    | String c r => (a ++ String c r)%string
    end.
Proof.
  induction a as [|x a IH]; cbn [append].
  - now destruct (rstrip_of p b).
  - rewrite !rstrip_cons, IH.
    destruct (rstrip_of p b) as [|c r]; [reflexivity|].
    destruct a; reflexivity.
Qed.

Lemma rstrip_keeps_head p c r :
  p c = false ->
  rstrip_of p (String c r) = String c (rstrip_of p r).
Proof.
  intros H. rewrite rstrip_cons.
  destruct (rstrip_of p r); [now rewrite H | reflexivity].
Qed.

Lemma lstrip_app p u x :
  u <> "" -> lstrip_of p u = u -> lstrip_of p (u ++ x)%string = (u ++ x)%string.
Proof.
  destruct u as [|c r]; [congruence|]. intros _. cbn [lstrip_of append].
  destruct (p c) eqn:E; [|reflexivity].
  intros H. exfalso.
  assert (L : forall y, (String.length (lstrip_of p y) <= String.length y)%nat).
  { induction y as [|a y IHy]; cbn; [lia|]. destruct (p a); cbn; lia. }
  specialize (L r). rewrite H in L. cbn in L. lia.
Qed.

Lemma before_comma_app u x :
  PyStr.str_in "," u = false ->
  before_comma (u ++ String "," x)%string = u.
Proof.
  induction u as [|c r IH]; [reflexivity|].
  rewrite str_in_comma_cons. intros H.
  apply orb_false_iff in H. destruct H as [Hc Hr].
  cbn [append before_comma]. now rewrite Hc, IH.
Qed.

Lemma str_in_comma_app u x : PyStr.str_in "," (u ++ String "," x)%string = true.
Proof.
  induction u as [|c r IH]; cbn [append]; rewrite str_in_comma_cons.
  - reflexivity.
  - rewrite IH. apply orb_true_r.
Qed.

Lemma append_not_empty u x : u <> "" -> (u ++ x)%string <> "".
Proof. destruct u; [congruence | discriminate]. Qed.

Lemma clean_lstrip u : clean u -> lstrip_of is_space u = u.
Proof.
  intros (_ & _ & _ & Hs). rewrite <- Hs at 1. unfold strip.
  rewrite lstrip_idem. exact Hs.
Qed.

Lemma clean_row_note (u note : string) (rest : list string) :
  clean u ->
  clean_row ((u ++ "," ++ note)%string :: rest) = Some u.
Proof.
  intros Hu. pose proof Hu as (_ & Hne & Hc & Hs).
  change (u ++ "," ++ note)%string with (u ++ String "," note)%string.
  unfold clean_row.
  assert (Hstrip : strip (u ++ String "," note)
                   = (u ++ String "," (rstrip_of is_space note))%string).
  { unfold strip. rewrite rstrip_app.
    rewrite (rstrip_keeps_head is_space "," note eq_refl).
    apply lstrip_app; [exact Hne | now apply clean_lstrip]. }
  rewrite Hstrip.
  assert (E0 : String.eqb (u ++ String "," (rstrip_of is_space note)) "" = false).
  { apply String.eqb_neq. now apply append_not_empty. }
  rewrite E0. apply String.eqb_neq in Hne.
  rewrite rstrip_app.
  destruct (rstrip_of is_comma (String "," (rstrip_of is_space note)))
    as [|c r] eqn:R.
  - rewrite (rstrip_comma_none u Hc), Hc. now rewrite Hne.
  - assert (c = ","%char) as ->.
    { rewrite rstrip_cons in R.
      destruct (rstrip_of is_comma (rstrip_of is_space note));
        cbn in R; congruence. }
    rewrite str_in_comma_app, (before_comma_app u r Hc), Hs.
    now rewrite Hne.
Qed.

End NoteFacts.

Import NoteFacts.

(** X24. What follows the first comma of a cell is dropped: a row whose
    first cell is a URL in ASCII, without comma and without white space
    around it, then a comma, then any note, gives the URL. *)
Theorem note_after_comma_is_dropped
    (u note : string) (rest : list string) (rows : list (list string)) :
  clean u ->
  read_urls_from_csv (((u ++ "," ++ note)%string :: rest) :: rows)
  = u :: read_urls_from_csv rows.
Proof.
  intros Hu. cbn [read_urls_from_csv].
  now rewrite (clean_row_note u note rest Hu).
Qed.

(** A cell with the note of the source's comment. *)
Lemma note_after_comma_witness :
  read_urls_from_csv
    ((("https://a.org" ++ "," ++ " keep an eye - not free")%string :: [])
       :: [["siteB.com"]])
  = "https://a.org" :: read_urls_from_csv [["siteB.com"]].
Proof.
  apply (note_after_comma_is_dropped "https://a.org"
           " keep an eye - not free" [] [["siteB.com"]]).
  repeat split. discriminate.
Defined.

(* ================================================================= *)
(** ** Further rules of the transformer and of the orchestrator *)



(** X26. The name, the description, the contact email and the member count
    of a document are the payload's, whatever they are; a missing key gives
    null, except for the name, which is then the empty string, while a name
    that is null stays null. *)
Theorem copied_fields date ts h p es url (pm : option string) :
  closed h = true ->
  deref h p = Some (ODict es) ->
  get_or es "pricing_model" VNone = opt_str pm ->
  exists doc h',
    transform_community_data date ts (VRef p) url h = (Ok doc, h') /\
    field h' doc "name"
    = Some (match dict_get "name" es with Some v => v | None => VStr "" end) /\
    Forall (fun k =>
              field h' doc k
              = Some (match dict_get k es with Some v => v | None => VNone end))
      ["description"; "contact_email"; "member_count"].
Proof.
  intros Hc Hp Hpm.
  destruct (transform_fields date ts h p es url _ Hc Hp
              ltac:(rewrite Hpm, pricing_model_of_opt; reflexivity))
    as (doc & h' & lang & fa & Heq & _ & Hf & _).
  exists doc, h'. split; [exact Heq|].
  split; [now rewrite Hf|].
  repeat constructor; now rewrite Hf.
Qed.

(** The sample payload: its name and its member count. *)
Lemma copied_fields_witness :
  exists doc h',
    transform_community_data Samples.date Samples.stamp (VRef 4%nat) "http://a"
      (Samples.loaded_heap
         (Samples.payload (JStr "https://a.org") (JStr "free") JNull))
    = (Ok doc, h') /\
    field h' doc "name" = Some (VStr "Women Who Code") /\
    Forall (fun k =>
              field h' doc k
              = Some (match
                        dict_get k
                          (Samples.entries_of
                             (Samples.loaded_heap
                                (Samples.payload (JStr "https://a.org")
                                   (JStr "free") JNull))
                             (VRef 4%nat))
                      with
                      | Some v => v
                      | None => VNone
                      end))
      ["description"; "contact_email"; "member_count"].
Proof.
  exact (copied_fields Samples.date Samples.stamp
           (Samples.loaded_heap
              (Samples.payload (JStr "https://a.org") (JStr "free") JNull))
           4%nat
           (Samples.entries_of
              (Samples.loaded_heap
                 (Samples.payload (JStr "https://a.org") (JStr "free") JNull))
              (VRef 4%nat))
           "http://a" (Some "free") eq_refl eq_refl eq_refl).
Defined.

Lemma process_urls_stored_from dump agent now urls u : forall idx st,
  url_exists (db (process_urls dump agent now idx urls st)) u = true ->
  url_exists (db st) u = true \/
  (In u urls /\ exists i, agent i u <> None).
Proof.
  induction urls as [|x rest IH]; intros idx st; cbn [process_urls]; [auto|].
  intros H. destruct (IH _ _ H) as [H1|[Hin Hex]].
  - unfold process_url in H1.
    destruct (url_exists (db st) x); [auto|].
    destruct (agent idx x) as [d|] eqn:Ea; [|auto].
    cbn [db] in H1. rewrite url_exists_save in H1.
    apply orb_true_iff in H1. destruct H1 as [E|E]; [|auto].
    apply String.eqb_eq in E. subst x.
    right. split; [now left|]. exists idx. congruence.
  - right. split; [now right | exact Hex].
Qed.

(** X27. The store only gains URLs on which the agent succeeded: a URL that
    is stored after a run was stored before it, or is a URL of the list for
    which a call of the agent returned a payload. A failure is not cached. *)
Theorem stored_urls_come_from_the_agent
    (dump : CommunityInfo -> string)
    (agent : nat -> string -> option CommunityInfo)
    (now : nat -> timestamp) (urls : list string) (file : option table)
    (u : string) :
  url_exists (db (process_communities dump agent now urls file)) u = true ->
  url_exists (init_database file) u = true \/
  (In u urls /\ exists i, agent i u <> None).
Proof.
  unfold process_communities. apply process_urls_stored_from.
Qed.

(** A run over two sites with an agent that succeeds. *)
Lemma stored_urls_witness :
  url_exists (init_database None) "siteB.com" = true \/
  (In "siteB.com" ["siteA.com"; "siteB.com"] /\
   exists i, Samples.agent_ok i "siteB.com" <> None).
Proof.
  apply (stored_urls_come_from_the_agent Samples.dump Samples.agent_ok
           Samples.tick ["siteA.com"; "siteB.com"] None "siteB.com").
  reflexivity.
Defined.
